(** * Paper-trading ledger and whale-copy pipeline

    A shallow embedding of [src/paper_trading_polymarket.py]
    ([PaperTradingEngine]), of [WhaleTrackerAgent] in
    [src/agents/whale_tracker_polymarket.py] and of the order helpers of
    [src/nice_funcs_polymarket.py].

    Conventions of the embedding.
    - A pandas DataFrame is the list of its rows, in index order; a row is a
      record with one field per column.
    - Python floats are exact rationals ([Q]); equalities between amounts
      that go through arithmetic are stated up to [Qeq] ([==]).
    - [datetime.now()] is an input of every operation that reads the clock;
      an operation is instantaneous, so all its clock reads agree.  The one
      place where two reads of one call are compared, the insert branch of
      [_update_whale_wallet], takes each read as an input of its own.
    - Console output ([cprint]) and the CSV writes ([_save_*]) leave the
      in-memory state untouched and are not represented. *)

From Stdlib Require Import List String Bool ZArith QArith Lqa Lia.
Import ListNotations.

Open Scope string_scope.
Open Scope Q_scope.

(** ** Python and pandas primitives *)

(** [x > y], [x < y] and [x >= y] on floats. *)
Definition Qgtb (x y : Q) : bool := negb (Qle_bool x y).
Definition Qltb (x y : Q) : bool := negb (Qle_bool y x).
Definition Qgeb (x y : Q) : bool := Qle_bool y x.

(** [df.empty] *)
Definition empty {A : Type} (df : list A) : bool :=
  match df with [] => true | _ :: _ => false end.

(** [series.sum()] *)
Fixpoint sum (xs : list Q) : Q :=
  match xs with
  | [] => 0
  | x :: xs' => x + sum xs'
  end.

(** [a or b] on strings: the empty string is falsy. *)
Definition str_or (a b : string) : string :=
  match a with EmptyString => b | _ => a end.

(** One reading of [datetime.now()], with the two renderings the code asks
    for: [.isoformat()] and [.strftime('%Y%m%d%H%M%S')]. *)
Record datetime := mk_datetime { isoformat : string; strftime : string }.

(** ** Rows of the three ledger tables *)

Module TradeRecord.
Record t := mk {
  timestamp : string;
  trade_id : string;
  market_slug : string;
  market_title : string;
  side : string;
  token_id : string;
  price : Q;
  size : Q;
  usd_value : Q;
  order_type : string;
  status : string;
  pnl : Q;
  notes : string
}.

(** [df.loc[mask, 'status'] = s] followed by [df.loc[mask, 'pnl'] = p],
    on one row selected by the mask. *)
Definition close (s : string) (p : Q) (r : t) : t :=
  mk (timestamp r) (trade_id r) (market_slug r) (market_title r) (side r)
     (token_id r) (price r) (size r) (usd_value r) (order_type r)
     s p (notes r).
End TradeRecord.

Module Position.
Record t := mk {
  market_slug : string;
  market_title : string;
  token_id : string;
  side : string;
  entry_price : Q;
  current_price : Q;
  shares : Q;
  entry_value : Q;
  current_value : Q;
  unrealized_pnl : Q;
  opened_at : string
}.

(** The three [.loc[mask, ...]] assignments of [update_position_prices]
    on one selected row. *)
Definition mark (p : Q) (r : t) : t :=
  let current_value' := shares r * p in
  mk (market_slug r) (market_title r) (token_id r) (side r)
     (entry_price r) p (shares r) (entry_value r)
     current_value' (current_value' - entry_value r) (opened_at r).
End Position.

Module BalanceSnapshot.
Record t := mk {
  timestamp : string;
  balance : Q;
  total_pnl : Q
}.
End BalanceSnapshot.

(** ** PaperTradingEngine *)

Module PaperTradingEngine.

Record t := mk {
  starting_balance : Q;
  balance : Q;
  trades_df : list TradeRecord.t;
  positions_df : list Position.t;
  balance_history : list BalanceSnapshot.t
}.

Definition set_balance (b : Q) (self : t) : t :=
  mk (starting_balance self) b (trades_df self) (positions_df self)
     (balance_history self).

Definition set_trades_df (df : list TradeRecord.t) (self : t) : t :=
  mk (starting_balance self) (balance self) df (positions_df self)
     (balance_history self).

Definition set_positions_df (df : list Position.t) (self : t) : t :=
  mk (starting_balance self) (balance self) (trades_df self) df
     (balance_history self).

Definition set_balance_history (df : list BalanceSnapshot.t) (self : t) : t :=
  mk (starting_balance self) (balance self) (trades_df self)
     (positions_df self) df.

(** [self.trades_df['status'] == 'CLOSED'] *)
Definition is_closed (r : TradeRecord.t) : bool :=
  TradeRecord.status r =? "CLOSED".

(** Realized P&L as [_recalculate_balance] computes it. *)
Definition realized_pnl (trades : list TradeRecord.t) : Q :=
  let closed_trades := filter is_closed trades in
  if empty closed_trades then 0 else sum (map TradeRecord.pnl closed_trades).

(** Unrealized P&L as [_recalculate_balance] computes it. *)
Definition unrealized_pnl (positions : list Position.t) : Q :=
  if empty positions then 0 else sum (map Position.unrealized_pnl positions).

Definition _recalculate_balance (now : datetime) (self : t) : t :=
  if empty (trades_df self) then
    set_balance (starting_balance self) self
  else
    let realized := realized_pnl (trades_df self) in
    let unrealized := unrealized_pnl (positions_df self) in
    let self1 := set_balance (starting_balance self + realized) self in
    let total_pnl := realized + unrealized in
    let balance_update :=
      BalanceSnapshot.mk (isoformat now) (balance self1) total_pnl in
    set_balance_history (balance_history self1 ++ [balance_update]) self1.

(** [__init__]: the three tables are what [_load_*] returned (empty when
    there is no CSV yet). *)
Definition init (now : datetime) (starting : Q)
    (trades : list TradeRecord.t) (positions : list Position.t)
    (history : list BalanceSnapshot.t) : t :=
  _recalculate_balance now (mk starting starting trades positions history).

Definition _add_position (now : datetime)
    (market_slug market_title token_id side : string)
    (entry_price shares entry_value : Q) (self : t) : t :=
  let position :=
    Position.mk market_slug market_title token_id side
                entry_price entry_price shares entry_value entry_value 0
                (isoformat now) in
  set_positions_df (positions_df self ++ [position]) self.

(** The row mask of [_close_position] on the positions table. *)
Definition position_mask (market_slug token_id : string)
    (r : Position.t) : bool :=
  (Position.market_slug r =? market_slug)
  && (Position.token_id r =? token_id).

(** The row mask of [_close_position] on the trades table. *)
Definition buy_trade_mask (market_slug token_id : string)
    (r : TradeRecord.t) : bool :=
  (TradeRecord.market_slug r =? market_slug)
  && (TradeRecord.token_id r =? token_id)
  && (TradeRecord.side r =? "BUY")
  && (TradeRecord.status r =? "OPEN").

Definition _close_position (market_slug token_id : string)
    (exit_price shares : Q) (self : t) : t :=
  let mask := position_mask market_slug token_id in
  match filter mask (positions_df self) with
  | [] => self
  | position :: _ =>
      let entry_value := Position.entry_value position in
      let exit_value := exit_price * shares in
      let pnl := exit_value - entry_value in
      let self1 := set_balance (balance self + exit_value) self in
      let buy_mask := buy_trade_mask market_slug token_id in
      let self2 :=
        if empty (filter buy_mask (trades_df self1)) then self1
        else
          set_trades_df
            (map (fun r => if buy_mask r
                           then TradeRecord.close "CLOSED" pnl r else r)
                 (trades_df self1))
            self1 in
      set_positions_df
        (filter (fun r => negb (mask r)) (positions_df self2)) self2
  end.

(** [place_order] returns [None] on the insufficient-balance path and the
    trade id otherwise. *)
Definition place_order (now : datetime)
    (market_slug market_title token_id side : string) (price size : Q)
    (order_type notes : string) (self : t) : option string * t :=
  let usd_value := price * size in
  if (side =? "BUY") && Qgtb usd_value (balance self) then (None, self)
  else
    let trade_id := "PAPER_" ++ strftime now in
    let trade :=
      TradeRecord.mk (isoformat now) trade_id market_slug market_title side
                     token_id price size usd_value order_type "OPEN" 0
                     notes in
    let self1 := set_trades_df (trades_df self ++ [trade]) self in
    let self2 :=
      if side =? "BUY" then set_balance (balance self1 - usd_value) self1
      else self1 in
    let self3 :=
      if side =? "BUY" then
        _add_position now market_slug market_title token_id side price size
                      usd_value self2
      else _close_position market_slug token_id price size self2 in
    (Some trade_id, _recalculate_balance now self3).

Definition update_position_prices (market_slug : string)
    (current_price : Q) (self : t) : t :=
  let mask := fun r => Position.market_slug r =? market_slug in
  if empty (filter mask (positions_df self)) then self
  else
    set_positions_df
      (map (fun r => if mask r then Position.mark current_price r else r)
           (positions_df self))
      self.

End PaperTradingEngine.

(** ** Collaborators of the order helpers and of the agent *)

(** A JSON object with numeric values, as [get_trader_stats] returns it;
    the empty list is the empty dict [{}]. *)
Definition dict := list (string * Q).

(** [d.get(key, default)] *)
Fixpoint dict_get (d : dict) (key : string) (default : Q) : Q :=
  match d with
  | [] => default
  | (k, v) :: d' => if k =? key then v else dict_get d' key default
  end.

(** [str.upper()] on ASCII text. *)
Definition upper_ascii (c : Ascii.ascii) : Ascii.ascii :=
  let n := Ascii.nat_of_ascii c in
  if (Nat.leb 97 n && Nat.leb n 122)%bool
  then Ascii.ascii_of_nat (n - 32) else c.

Fixpoint upper (s : string) : string :=
  match s with
  | EmptyString => EmptyString
  | String c s' => String (upper_ascii c) (upper s')
  end.

(** [py_clob_client.clob_types.OrderArgs] *)
Module OrderArgs.
Record t := mk {
  price : Q;
  size : Q;
  side : string;
  token_id : string
}.
End OrderArgs.

(** The exchange client of live mode.  [get_order_book] gives the prices of
    the asks and of the bids, best first (both empty for the empty book and
    when the fetch fails); [post_order] stands for [create_order] followed
    by [post_order] and gives the [orderID] of the response, empty when the
    response has none or the call raises; [get_balance_allowance] is the
    raw balance in USDC units. *)
Record ClobClient := mk_ClobClient {
  get_order_book : string -> list Q * list Q;
  post_order : OrderArgs.t -> string;
  get_balance_allowance : Q
}.

(** What the process gets from outside: the flags read from the
    environment, the exchange client ([None] in paper mode or without
    credentials), the wallet-stats lookup, the consensus oracle, and the
    rendering of [f"{x:.Nf}"]. *)
Record Collaborators := mk_Collaborators {
  poly_client : option ClobClient;
  get_trader_stats : string -> dict;
  ai_validate_trade : string -> string -> Q -> bool;
  format_float : nat -> Q -> string
}.

(** The settings at the head of [whale_tracker_polymarket.py], with
    [PAPER_TRADING_ENABLED] as read from the environment. *)
Record Config := mk_Config {
  MIN_WHALE_TRADE_SIZE : Q;
  MIN_WHALE_WIN_RATE : Q;
  MIN_AI_CONSENSUS : Q;
  AUTO_COPY_ENABLED : bool;
  MAX_POSITION_SIZE : Q;
  COPY_PERCENTAGE : Q;
  PAPER_TRADING_ENABLED : bool
}.

(** The values written in the source. *)
Definition default_config : Config :=
  mk_Config 10000 60 (70 # 100) false 100 10 true.

(** ** Order helpers of nice_funcs_polymarket.py

    The module-level [paper_engine] is threaded through explicitly: it is
    [None] when paper trading is disabled. *)

Section OrderHelpers.
Variable cfg : Config.
Variable ext : Collaborators.

Definition place_limit_order (now : datetime) (token_id : string)
    (price size : Q) (side market_slug market_title notes : string)
    (paper_engine : option PaperTradingEngine.t)
    : option string * option PaperTradingEngine.t :=
  if PAPER_TRADING_ENABLED cfg then
    match paper_engine with
    | Some engine =>
        let '(r, engine') :=
          PaperTradingEngine.place_order now
            (str_or market_slug "unknown")
            (str_or market_title "Unknown Market")
            token_id side price size "LIMIT" notes engine in
        (r, Some engine')
    | None => (None, paper_engine)
    end
  else
    match poly_client ext with
    | None => (None, paper_engine)
    | Some client =>
        let order_args := OrderArgs.mk price size (upper side) token_id in
        let order_id := post_order client order_args in
        (match order_id with EmptyString => None | _ => Some order_id end,
         paper_engine)
    end.

Definition place_market_order (now : datetime) (token_id : string)
    (size : Q) (side market_slug market_title notes : string)
    (paper_engine : option PaperTradingEngine.t)
    : option string * option PaperTradingEngine.t :=
  if PAPER_TRADING_ENABLED cfg then
    let simulated_price := 50 # 100 in
    match paper_engine with
    | Some engine =>
        let '(r, engine') :=
          PaperTradingEngine.place_order now
            (str_or market_slug "unknown")
            (str_or market_title "Unknown Market")
            token_id side simulated_price size "MARKET"
            (str_or notes "Market order (simulated price)") engine in
        (r, Some engine')
    | None => (None, paper_engine)
    end
  else
    let order_book :=
      match poly_client ext with
      | None => ([], [])
      | Some client => get_order_book client token_id
      end in
    let best :=
      if upper side =? "BUY" then hd_error (fst order_book)
      else hd_error (snd order_book) in
    match best with
    | None => (None, paper_engine)
    | Some price =>
        place_limit_order now token_id price size side market_slug
          market_title
          (str_or notes ("Market order @ $" ++ format_float ext 3 price))
          paper_engine
    end.

Definition get_balance (paper_engine : option PaperTradingEngine.t) : Q :=
  if PAPER_TRADING_ENABLED cfg then
    match paper_engine with
    | Some engine => PaperTradingEngine.balance engine
    | None => 10000
    end
  else
    match poly_client ext with
    | None => 0
    | Some client => get_balance_allowance client / 1000000
    end.

End OrderHelpers.

(** ** Rows of the agent's tables *)

Module WhaleTrade.
Record t := mk {
  timestamp : string;
  market_slug : string;
  market_title : string;
  wallet_address : string;
  side : string;
  price : Q;
  size : Q;
  usd_value : Q;
  trader_win_rate : Q;
  ai_validated : bool;
  copied : bool
}.
End WhaleTrade.

Module WhaleWallet.
Record t := mk {
  wallet_address : string;
  win_rate : Q;
  total_volume : Q;
  profit_loss : Q;
  first_seen : string;
  last_seen : string;
  trade_count : Z
}.
End WhaleWallet.

Module CopySignal.
Record t := mk {
  timestamp : string;
  market_slug : string;
  market_title : string;
  whale_wallet : string;
  whale_side : string;
  whale_size : Q;
  our_side : string;
  our_size : Q;
  ai_consensus : Q;
  executed : bool;
  outcome : string
}.
End CopySignal.

(** ** Messages of the live feed, after [json.loads] *)

(** A numeric field of the payload: absent, a value [float()] accepts, or a
    value on which [float()] raises. *)
Inductive num_field :=
| absent
| numeric (x : Q)
| malformed.

(** [float(payload.get(key, 0))]; [None] when it raises. *)
Definition float_get (f : num_field) : option Q :=
  match f with
  | absent => Some 0
  | numeric x => Some x
  | malformed => None
  end.

(** A field of the payload that the code slices ([value[:n]]): absent, a
    string, or a JSON value that cannot be sliced (null, a number, a
    boolean, an object), on which the slice raises TypeError.  A JSON array
    in such a field is outside the model. *)
Inductive text_field :=
| no_text
| text (s : string)
| not_text.

(** [payload.get(key, default)] followed by a slice of the value; [None]
    when the slice raises. *)
Definition text_get (f : text_field) (default : string) : option string :=
  match f with
  | no_text => Some default
  | text s => Some s
  | not_text => None
  end.

(** The fields of the payload that the agent reads.  [title] and [trader]
    are sliced for the console and may be anything; [eventSlug] and [side]
    are strings when present.  A payload that is not an object behaves as
    one whose [price] is [malformed]: the first [payload.get] raises. *)
Record Payload := mk_Payload {
  eventSlug : option string;
  title : text_field;
  trader : text_field;
  side : option string;
  price : num_field;
  size : num_field
}.

(** [payload.get(key, default)] on a text field. *)
Definition str_get (f : option string) (default : string) : string :=
  match f with Some s => s | None => default end.

(** [data.get(key) == s] on a text field of the message. *)
Definition get_eqb (f : option string) (s : string) : bool :=
  match f with Some x => x =? s | None => false end.

Inductive Message :=
| not_json                      (* json.loads raises JSONDecodeError *)
| not_an_object                 (* a JSON value that is not a dict *)
| object (type topic : option string) (payload : Payload).

(** [min(a, b)] of Python: the first argument unless the second is smaller. *)
Definition min (a b : Q) : Q := if Qltb b a then b else a.

(** ** WhaleTrackerAgent *)

Module WhaleTrackerAgent.

Record t := mk {
  ws_connected : bool;
  total_trades_tracked : Z;
  whale_trades_detected : Z;
  ai_validated_trades : Z;
  trades_copied : Z;
  whale_trades_df : list WhaleTrade.t;
  whale_wallets_df : list WhaleWallet.t;
  copy_signals_df : list CopySignal.t
}.

(** The agent together with the module-level [paper_engine]. *)
Definition world : Type := t * option PaperTradingEngine.t.

Section Agent.
Variable cfg : Config.
Variable ext : Collaborators.

(** [self.whale_wallets_df['wallet_address'] == wallet] *)
Definition wallet_mask (wallet : string) (r : WhaleWallet.t) : bool :=
  WhaleWallet.wallet_address r =? wallet.

(** The [.loc[mask, ...]] assignments of the update branch on one
    selected row. *)
Definition sighting (now : datetime) (stats : dict)
    (r : WhaleWallet.t) : WhaleWallet.t :=
  let r1 :=
    WhaleWallet.mk (WhaleWallet.wallet_address r) (WhaleWallet.win_rate r)
      (WhaleWallet.total_volume r) (WhaleWallet.profit_loss r)
      (WhaleWallet.first_seen r) (isoformat now)
      (WhaleWallet.trade_count r + 1) in
  if empty stats then r1
  else
    WhaleWallet.mk (WhaleWallet.wallet_address r1)
      (dict_get stats "win_rate" 0) (dict_get stats "total_volume" 0)
      (dict_get stats "profit_loss" 0)
      (WhaleWallet.first_seen r1) (WhaleWallet.last_seen r1)
      (WhaleWallet.trade_count r1).

(** [now] is the first clock reading of the call and [later] the second
    one, which only the insert branch makes: there [first_seen] and
    [last_seen] each come from a [datetime.now()] of their own. *)
Definition _update_whale_wallet (now later : datetime) (wallet : string)
    (stats : dict) (whale_wallets_df : list WhaleWallet.t)
    : list WhaleWallet.t :=
  if existsb (wallet_mask wallet) whale_wallets_df then
    map (fun r => if wallet_mask wallet r then sighting now stats r else r)
        whale_wallets_df
  else
    let new_whale :=
      WhaleWallet.mk wallet
        (if empty stats then 0 else dict_get stats "win_rate" 0)
        (if empty stats then 0 else dict_get stats "total_volume" 0)
        (if empty stats then 0 else dict_get stats "profit_loss" 0)
        (isoformat now) (isoformat later) 1 in
    whale_wallets_df ++ [new_whale].

Definition _evaluate_copy_trade (now : datetime)
    (market_slug market_title whale_side : string) (whale_size_usd : Q)
    (whale_wallet : string) (whale_win_rate : Q) (w : world) : world :=
  let '(self, paper_engine) := w in
  let ai_approved :=
    ai_validate_trade ext market_slug whale_side (MIN_AI_CONSENSUS cfg) in
  if negb ai_approved then w
  else
    let self1 :=
      mk (ws_connected self) (total_trades_tracked self)
         (whale_trades_detected self) (ai_validated_trades self + 1)
         (trades_copied self) (whale_trades_df self)
         (whale_wallets_df self) (copy_signals_df self) in
    let copy_size_usd :=
      min (whale_size_usd * (COPY_PERCENTAGE cfg / 100))
          (MAX_POSITION_SIZE cfg) in
    let balance := get_balance cfg ext paper_engine in
    if Qltb balance copy_size_usd then (self1, paper_engine)
    else if AUTO_COPY_ENABLED cfg then
      let token_id :=
        if whale_side =? "YES" then market_slug ++ "_YES_TOKEN"
        else market_slug ++ "_NO_TOKEN" in
      let '(order_id, paper_engine') :=
        place_market_order cfg ext now token_id copy_size_usd "BUY"
          market_slug market_title
          ("Whale copy: " ++ substring 0 16 whale_wallet
           ++ "... | Win rate: " ++ format_float ext 1 whale_win_rate
           ++ "% | AI validated")
          paper_engine in
      let executed :=
        match order_id with Some _ => true | None => false end in
      let copy_signal :=
        CopySignal.mk (isoformat now) market_slug market_title
          whale_wallet whale_side whale_size_usd whale_side copy_size_usd
          (MIN_AI_CONSENSUS cfg) executed "PENDING" in
      (mk (ws_connected self1) (total_trades_tracked self1)
          (whale_trades_detected self1) (ai_validated_trades self1)
          (if executed then trades_copied self1 + 1
           else trades_copied self1)
          (whale_trades_df self1) (whale_wallets_df self1)
          (copy_signals_df self1 ++ [copy_signal]),
       paper_engine')
    else (self1, paper_engine).

(** [price] and [size] are read again from [trade_data] by the same
    [float] calls that [on_ws_message] has just made; they are passed
    in.  The counter goes up first; then the console lines slice the title
    and the wallet, and when either slice raises, the exception leaves the
    function, to be caught by [on_ws_message], with nothing else done: the
    result is then the state at the raise.  The message is handled in an
    instant: the registry update gets the reading [now] for both of its
    reads. *)
Definition process_whale_trade (now : datetime) (trade_data : Payload)
    (usd_value price size : Q) (w : world) : world :=
  let '(self, paper_engine) := w in
  let self0 :=
    mk (ws_connected self) (total_trades_tracked self)
       (whale_trades_detected self + 1) (ai_validated_trades self)
       (trades_copied self) (whale_trades_df self) (whale_wallets_df self)
       (copy_signals_df self) in
  let market_slug := str_get (eventSlug trade_data) "" in
  let side := str_get (side trade_data) "" in
  match text_get (title trade_data) "Unknown",
        text_get (trader trade_data) "Unknown" with
  | Some market_title, Some wallet =>
      let trader_stats := get_trader_stats ext wallet in
      let win_rate := dict_get trader_stats "win_rate" 0 in
      let is_quality_whale := Qgeb win_rate (MIN_WHALE_WIN_RATE cfg) in
      let new_trade :=
        WhaleTrade.mk (isoformat now) market_slug market_title wallet side
          price size usd_value win_rate false false in
      let self1 :=
        mk (ws_connected self0) (total_trades_tracked self0)
           (whale_trades_detected self0) (ai_validated_trades self0)
           (trades_copied self0) (whale_trades_df self0 ++ [new_trade])
           (_update_whale_wallet now now wallet trader_stats
              (whale_wallets_df self0))
           (copy_signals_df self0) in
      if is_quality_whale && AUTO_COPY_ENABLED cfg then
        _evaluate_copy_trade now market_slug market_title side usd_value
          wallet win_rate (self1, paper_engine)
      else (self1, paper_engine)
  | _, _ => (self0, paper_engine)
  end.

Definition set_ws_connected (b : bool) (self : t) : t :=
  mk b (total_trades_tracked self) (whale_trades_detected self)
     (ai_validated_trades self) (trades_copied self)
     (whale_trades_df self) (whale_wallets_df self)
     (copy_signals_df self).

Definition on_ws_message (now : datetime) (message : Message)
    (w : world) : world :=
  let '(self, paper_engine) := w in
  match message with
  | not_json => w
  | not_an_object => w
  | object type topic payload =>
      if get_eqb type "subscribed" then
        (set_ws_connected true self, paper_engine)
      else if get_eqb type "pong" then w
      else if get_eqb topic "activity" && get_eqb type "orders_matched"
      then
        let self1 :=
          mk true (total_trades_tracked self + 1)
             (whale_trades_detected self) (ai_validated_trades self)
             (trades_copied self) (whale_trades_df self)
             (whale_wallets_df self) (copy_signals_df self) in
        match float_get (price payload), float_get (size payload) with
        | Some price, Some size =>
            let usd_value := price * size in
            if Qgeb usd_value (MIN_WHALE_TRADE_SIZE cfg) then
              process_whale_trade now payload usd_value price size
                (self1, paper_engine)
            else (self1, paper_engine)
        | _, _ => (self1, paper_engine)
        end
      else w
  end.

End Agent.
End WhaleTrackerAgent.

(** ** Reachable states of the engine

    The states the process can be in: a fresh engine over empty tables,
    any [place_order] and [update_position_prices] call, and a restart,
    which runs [__init__] again on the persisted tables, read back with
    the rows they were written with. *)

Import PaperTradingEngine.

Inductive reachable : PaperTradingEngine.t -> Prop :=
| reachable_fresh now starting :
    reachable (init now starting [] [] [])
| reachable_place_order now market_slug market_title token_id side price size
    order_type notes self :
    reachable self ->
    reachable (snd (place_order now market_slug market_title token_id side
                      price size order_type notes self))
| reachable_update_position_prices market_slug current_price self :
    reachable self ->
    reachable (update_position_prices market_slug current_price self)
| reachable_restart now starting self :
    reachable self ->
    reachable (init now starting (trades_df self) (positions_df self)
                 (balance_history self)).


(** Every open BUY trade has a position on its (market, token) pair. *)
Definition open_buys_have_positions (self : PaperTradingEngine.t) : Prop :=
  forall r, In r (trades_df self) ->
    TradeRecord.side r = "BUY" -> TradeRecord.status r = "OPEN" ->
    exists p, In p (positions_df self)
      /\ Position.market_slug p = TradeRecord.market_slug r
      /\ Position.token_id p = TradeRecord.token_id r.

(** A clock reading used by the examples. *)
Definition t0 : datetime := mk_datetime "2024-01-01T00:00:00" "20240101000000".

(** The [total_pnl] that [_recalculate_balance] writes into its snapshot. *)
Definition total_pnl (self : PaperTradingEngine.t) : Q :=
  realized_pnl (trades_df self) + unrealized_pnl (positions_df self).

(** The row that [place_order] appends to the trades table. *)
Definition new_trade (now : datetime)
    (market_slug market_title token_id side : string) (price size : Q)
    (order_type notes : string) : TradeRecord.t :=
  TradeRecord.mk (isoformat now) ("PAPER_" ++ strftime now) market_slug
    market_title side token_id price size (price * size) order_type "OPEN" 0
    notes.

(** A fresh engine with the starting balance of the source's example run. *)
Definition fresh : PaperTradingEngine.t := init t0 10000 [] [] [].

(** The four orders of the run that drives the balance below zero. *)
Definition overdraw_run : list (option string) * PaperTradingEngine.t :=
  let s0 := init t0 100 [] [] [] in
  let r1 := place_order t0 "market-a" "A" "A_YES" "BUY" (50 # 100) 200
              "LIMIT" "" s0 in
  let r2 := place_order t0 "market-b" "B" "B_YES" "BUY" (50 # 100) 200
              "LIMIT" "" (snd r1) in
  let r3 := place_order t0 "market-a" "A" "A_YES" "SELL" (10 # 100) 200
              "LIMIT" "" (snd r2) in
  let r4 := place_order t0 "market-b" "B" "B_YES" "SELL" (10 # 100) 200
              "LIMIT" "" (snd r3) in
  ([fst r1; fst r2; fst r3; fst r4], snd r4).

(** The source's settings with auto-copy switched on. *)
Definition copy_config : Config :=
  mk_Config (MIN_WHALE_TRADE_SIZE default_config)
    (MIN_WHALE_WIN_RATE default_config) (MIN_AI_CONSENSUS default_config)
    true (MAX_POSITION_SIZE default_config) (COPY_PERCENTAGE default_config)
    (PAPER_TRADING_ENABLED default_config).

(** Collaborators of the examples: no exchange client, a stats lookup that
    knows every wallet as a 75% winner, and an oracle that approves. *)
Definition approving : Collaborators :=
  mk_Collaborators None
    (fun _ => [("win_rate", 75); ("total_volume", 2500000);
               ("profit_loss", 180000)])
    (fun _ _ _ => true)
    (fun _ _ => "75.0").

(** Collaborators whose stats lookup is unavailable. *)
Definition offline : Collaborators :=
  mk_Collaborators None (fun _ => []) (fun _ _ _ => false) (fun _ _ => "0.0").

(** An agent that has seen nothing yet. *)
Definition idle : WhaleTrackerAgent.t :=
  WhaleTrackerAgent.mk false 0 0 0 0 [] [] [].

(** An [orders_matched] event of the activity topic. *)
Definition trade_event (market wallet outcome : string) (p s : Q) : Message :=
  object (Some "orders_matched") (Some "activity")
    (mk_Payload (Some market) (text market) (text wallet) (Some outcome)
       (numeric p) (numeric s)).

(** The registry after a first sighting of one wallet, with its stats. *)
Definition one_whale : list WhaleWallet.t :=
  WhaleTrackerAgent._update_whale_wallet t0 t0 "0xwhale"
    (get_trader_stats approving "0xwhale") [].

(** A whale trade of 50,000 USD by a quality wallet, seen by an agent with
    auto-copy on and a fresh paper engine. *)
Definition copy_run : WhaleTrackerAgent.world :=
  WhaleTrackerAgent.on_ws_message copy_config approving t0
    (trade_event "fed-rate-cut" "0xwhale" "YES" (50 # 100) 100000)
    (idle, Some fresh).

(** ** Performance summary of the engine *)

(** The dict that [get_performance_summary] returns.  [total_return] is
    [None] when the starting balance is zero: the float division then gives
    no finite number. *)
Module PerformanceSummary.
Record t := mk {
  total_trades : nat;
  winning_trades : nat;
  losing_trades : nat;
  win_rate : Q;
  total_pnl : Q;
  avg_win : Q;
  avg_loss : Q;
  current_balance : Q;
  total_return : option Q
}.
End PerformanceSummary.

(** [len(df)] as a float. *)
Definition len {A : Type} (df : list A) : Q := inject_Z (Z.of_nat (List.length df)).

(** [series.mean()] on a series that is not empty. *)
Definition mean (xs : list Q) : Q := sum xs / len xs.

Definition get_performance_summary (self : PaperTradingEngine.t)
    : PerformanceSummary.t :=
  let closed_trades := filter is_closed (trades_df self) in
  if empty closed_trades then
    PerformanceSummary.mk 0 0 0 0 0 0 0 (balance self) (Some 0)
  else
    let winning := filter (fun r => Qgtb (TradeRecord.pnl r) 0) closed_trades in
    let losing := filter (fun r => Qltb (TradeRecord.pnl r) 0) closed_trades in
    let total_pnl := sum (map TradeRecord.pnl closed_trades) in
    let total_return :=
      if Qeq_bool (starting_balance self) 0 then None
      else Some ((balance self - starting_balance self)
                 / starting_balance self * 100) in
    PerformanceSummary.mk
      (List.length closed_trades) (List.length winning) (List.length losing)
      (if Nat.ltb 0 (List.length closed_trades)
       then len winning / len closed_trades * 100 else 0)
      total_pnl
      (if Nat.ltb 0 (List.length winning)
       then mean (map TradeRecord.pnl winning) else 0)
      (if Nat.ltb 0 (List.length losing)
       then mean (map TradeRecord.pnl losing) else 0)
      (balance self) total_return.

(** ** Runs of the engine *)

(** [evolves self self']: within one process the engine gets from [self]
    to [self'] by [place_order] and [update_position_prices] calls. *)
Inductive evolves : PaperTradingEngine.t -> PaperTradingEngine.t -> Prop :=
| evolves_refl self : evolves self self
| evolves_place_order now market_slug market_title token_id side price size
    order_type notes self self' :
    evolves self self' ->
    evolves self
      (snd (place_order now market_slug market_title token_id side price size
              order_type notes self'))
| evolves_update_position_prices market_slug current_price self self' :
    evolves self self' ->
    evolves self (update_position_prices market_slug current_price self').

(** Every position has an open BUY trade on its (market, token) pair. *)
Definition positions_have_open_buys (self : PaperTradingEngine.t) : Prop :=
  forall p, In p (positions_df self) ->
    exists r, In r (trades_df self)
      /\ TradeRecord.side r = "BUY" /\ TradeRecord.status r = "OPEN"
      /\ TradeRecord.market_slug r = Position.market_slug p
      /\ TradeRecord.token_id r = Position.token_id p.

(** ** The consensus vote of ai_validate_trade *)

(** [needle in hay] on strings. *)
Fixpoint contains (needle hay : string) : bool :=
  String.prefix needle hay
  || match hay with
     | EmptyString => false
     | String _ hay' => contains needle hay'
     end.

Module Swarm.

(** One entry of [result['responses']]: [success] is whether
    [model_data.get('success')] is truthy, [response] is
    [model_data.get('response', '')]. *)
Record model_data := mk { success : bool; response : string }.

(** One turn of the counting loop on [(yes_votes, no_votes, total_votes)]. *)
Definition count_vote (votes : Z * Z * Z) (d : model_data) : Z * Z * Z :=
  let '(yes_votes, no_votes, total_votes) := votes in
  if success d then
    let response := upper (response d) in
    let total_votes := (total_votes + 1)%Z in
    if contains "YES" response && negb (contains "NO" response) then
      ((yes_votes + 1)%Z, no_votes, total_votes)
    else if contains "NO" response then
      (yes_votes, (no_votes + 1)%Z, total_votes)
    else (yes_votes, no_votes, total_votes)
  else votes.

(** [ai_validate_trade] from the swarm's answer on: [responses] is [None]
    when anything before or inside the count raises, which the function
    catches and answers with [False]. *)
Definition ai_validate_trade (responses : option (list model_data))
    (confidence_threshold : Q) : bool :=
  match responses with
  | None => false
  | Some responses =>
      let '(yes_votes, no_votes, total_votes) :=
        fold_left count_vote responses (0%Z, 0%Z, 0%Z) in
      if (total_votes =? 0)%Z then false
      else
        let consensus := inject_Z yes_votes / inject_Z total_votes in
        Qgeb consensus confidence_threshold
  end.

(** The answers that count as agreement: successful, with YES and without
    NO in the upper-cased text. *)
Definition agrees (d : model_data) : bool :=
  success d
  && (contains "YES" (upper (response d))
      && negb (contains "NO" (upper (response d)))).

End Swarm.

(** ** Runs of the agent *)

(** [agent_run cfg w w']: the agent and the paper engine get from [w] to
    [w'] by handling feed messages, each with the collaborators' answers of
    its moment. *)
Inductive agent_run (cfg : Config)
    : WhaleTrackerAgent.world -> WhaleTrackerAgent.world -> Prop :=
| agent_run_refl w : agent_run cfg w w
| agent_run_message ext now message w w' :
    agent_run cfg w w' ->
    agent_run cfg w (WhaleTrackerAgent.on_ws_message cfg ext now message w').

(** The number of logged whale trades of one wallet. *)
Definition logged_trades_of (wallet : string) (log : list WhaleTrade.t) : Z :=
  Z.of_nat
    (List.length
       (filter (fun r => WhaleTrade.wallet_address r =? wallet) log)).

(** The copy size that [_evaluate_copy_trade] computes. *)
Definition copy_size_usd (cfg : Config) (whale_size_usd : Q) : Q :=
  min (whale_size_usd * (COPY_PERCENTAGE cfg / 100)) (MAX_POSITION_SIZE cfg).

(** Collaborators whose stats lookup knows every wallet as a 45% winner. *)
Definition mediocre : Collaborators :=
  mk_Collaborators None (fun _ => [("win_rate", 45)]) (fun _ _ _ => true)
    (fun _ _ => "45.0").

(** The token and the notes that [_evaluate_copy_trade] passes on. *)
Definition copy_token (market_slug whale_side : string) : string :=
  if whale_side =? "YES" then market_slug ++ "_YES_TOKEN"
  else market_slug ++ "_NO_TOKEN".

Definition copy_notes (ext : Collaborators) (whale_wallet : string)
    (whale_win_rate : Q) : string :=
  "Whale copy: " ++ substring 0 16 whale_wallet
  ++ "... | Win rate: " ++ format_float ext 1 whale_win_rate
  ++ "% | AI validated".

(** The row that [process_whale_trade] appends to the whale log for a
    trade whose title and wallet it could slice. *)
Definition whale_row (ext : Collaborators) (now : datetime)
    (payload : Payload) (market_title wallet : string) (p s : Q)
    : WhaleTrade.t :=
  WhaleTrade.mk (isoformat now) (str_get (eventSlug payload) "")
    market_title wallet (str_get (side payload) "") p s (p * s)
    (dict_get (get_trader_stats ext wallet) "win_rate" 0) false false.

(** The number of copy signals whose order went through. *)
Definition executed_signals (signals : list CopySignal.t) : Z :=
  Z.of_nat (List.length (filter CopySignal.executed signals)).

(** What every row of the whale log satisfies. *)
Definition logged_as_whale (cfg : Config) (row : WhaleTrade.t) : Prop :=
  WhaleTrade.usd_value row = WhaleTrade.price row * WhaleTrade.size row
  /\ MIN_WHALE_TRADE_SIZE cfg <= WhaleTrade.usd_value row
  /\ WhaleTrade.ai_validated row = false
  /\ WhaleTrade.copied row = false.

(** What every copy signal satisfies. *)
Definition sized_by_config (cfg : Config) (signal : CopySignal.t) : Prop :=
  CopySignal.our_size signal <= MAX_POSITION_SIZE cfg
  /\ CopySignal.our_size signal
     <= CopySignal.whale_size signal * (COPY_PERCENTAGE cfg / 100)
  /\ MIN_WHALE_TRADE_SIZE cfg <= CopySignal.whale_size signal
  /\ CopySignal.our_side signal = CopySignal.whale_side signal
  /\ CopySignal.ai_consensus signal = MIN_AI_CONSENSUS cfg
  /\ CopySignal.outcome signal = "PENDING".


(** * Properties *)

(** ** Pandas primitives *)

Lemma empty_nil {A : Type} (df : list A) : empty df = true <-> df = [].
Proof. destruct df; simpl; split; congruence. Qed.

Lemma empty_app_row {A : Type} (df : list A) (row : A) :
  empty (df ++ [row]) = false.
Proof. destruct df; reflexivity. Qed.


Lemma Qgtb_false (x y : Q) : Qgtb x y = false <-> x <= y.
Proof.
  unfold Qgtb. rewrite negb_false_iff. apply Qle_bool_iff.
Qed.

Lemma Qgtb_true (x y : Q) : Qgtb x y = true <-> y < x.
Proof.
  unfold Qgtb. rewrite negb_true_iff. split; intro H.
  - apply Qnot_le_lt. intro Hle. apply Qle_bool_iff in Hle. congruence.
  - destruct (Qle_bool x y) eqn:E; [|reflexivity].
    apply Qle_bool_iff in E. exfalso. apply (Qlt_not_le _ _ H E).
Qed.

(** A masked assignment on a table none of whose rows is selected. *)
Lemma map_mask_none {A : Type} (mask : A -> bool) (f : A -> A) (df : list A) :
  filter mask df = [] ->
  map (fun r => if mask r then f r else r) df = df.
Proof.
  induction df as [|r df IH]; simpl; [reflexivity|].
  destruct (mask r); [discriminate|]. intro H. now rewrite IH.
Qed.

(** ** The balance the engine reports *)

Lemma realized_pnl_sum trades :
  realized_pnl trades = sum (map TradeRecord.pnl (filter is_closed trades)).
Proof.
  unfold realized_pnl. destruct (filter is_closed trades); reflexivity.
Qed.


Lemma recalculate_frame now self :
  starting_balance (_recalculate_balance now self) = starting_balance self
  /\ trades_df (_recalculate_balance now self) = trades_df self
  /\ positions_df (_recalculate_balance now self) = positions_df self.
Proof.
  unfold _recalculate_balance. destruct (empty (trades_df self)); auto.
Qed.

Lemma recalculate_balance_value now self :
  balance (_recalculate_balance now self)
  == starting_balance self + realized_pnl (trades_df self).
Proof.
  unfold _recalculate_balance.
  destruct (empty (trades_df self)) eqn:E; simpl.
  - apply empty_nil in E. rewrite E. unfold realized_pnl. simpl. ring.
  - reflexivity.
Qed.

(** The three ways a [place_order] call can go.  A BUY whose cost exceeds
    the balance returns no trade id and changes nothing. *)
Lemma place_order_rejected now slug title token price size order_type notes self :
  balance self < price * size ->
  place_order now slug title token "BUY" price size order_type notes self
  = (None, self).
Proof.
  intro H. unfold place_order.
  apply Qgtb_true in H. rewrite H. reflexivity.
Qed.

Lemma place_order_buy now slug title token price size order_type notes self :
  price * size <= balance self ->
  place_order now slug title token "BUY" price size order_type notes self
  = (Some ("PAPER_" ++ strftime now),
     _recalculate_balance now
       (_add_position now slug title token "BUY" price size (price * size)
          (set_balance (balance self - price * size)
             (set_trades_df
                (trades_df self ++
                   [TradeRecord.mk (isoformat now) ("PAPER_" ++ strftime now)
                      slug title "BUY" token price size (price * size)
                      order_type "OPEN" 0 notes])
                self)))).
Proof.
  intro H. unfold place_order.
  apply Qgtb_false in H. rewrite H. reflexivity.
Qed.

Lemma place_order_sell now slug title token side price size order_type notes
    self :
  side <> "BUY" ->
  place_order now slug title token side price size order_type notes self
  = (Some ("PAPER_" ++ strftime now),
     _recalculate_balance now
       (_close_position slug token price size
          (set_trades_df
             (trades_df self ++
                [TradeRecord.mk (isoformat now) ("PAPER_" ++ strftime now)
                   slug title side token price size (price * size)
                   order_type "OPEN" 0 notes])
             self))).
Proof.
  intro H. unfold place_order.
  apply String.eqb_neq in H. rewrite H. reflexivity.
Qed.

(** What [_close_position] does to each part of the state. *)
Lemma close_position_not_found slug token exit_price shares self :
  filter (position_mask slug token) (positions_df self) = [] ->
  _close_position slug token exit_price shares self = self.
Proof. intro H. unfold _close_position. now rewrite H. Qed.

Lemma close_position_found slug token exit_price shares self position rest :
  filter (position_mask slug token) (positions_df self) = position :: rest ->
  let pnl := exit_price * shares - Position.entry_value position in
  let self' := _close_position slug token exit_price shares self in
  starting_balance self' = starting_balance self
  /\ trades_df self'
     = map (fun r => if buy_trade_mask slug token r
                     then TradeRecord.close "CLOSED" pnl r else r)
           (trades_df self)
  /\ positions_df self'
     = filter (fun r => negb (position_mask slug token r)) (positions_df self)
  /\ balance_history self' = balance_history self.
Proof.
  intros H pnl self'. subst self'. unfold _close_position. rewrite H.
  cbn [trades_df set_balance].
  destruct (empty (filter (buy_trade_mask slug token) (trades_df self))) eqn:E.
  - apply empty_nil in E. rewrite (map_mask_none _ _ _ E).
    repeat split; reflexivity.
  - repeat split; reflexivity.
Qed.

Lemma close_position_starting slug token exit_price shares self :
  starting_balance (_close_position slug token exit_price shares self)
  = starting_balance self.
Proof.
  destruct (filter (position_mask slug token) (positions_df self))
    as [|position rest] eqn:E.
  - now rewrite close_position_not_found.
  - apply (close_position_found slug token exit_price shares self _ _ E).
Qed.

Lemma place_order_cases now slug title token side price size order_type notes
    self :
  let r := place_order now slug title token side price size order_type notes
             self in
  r = (None, self)
  \/ exists self3, r = (Some ("PAPER_" ++ strftime now),
                        _recalculate_balance now self3)
       /\ starting_balance self3 = starting_balance self.
Proof.
  unfold place_order.
  destruct ((side =? "BUY") && Qgtb (price * size) (balance self));
    [left; reflexivity|right].
  eexists. split; [reflexivity|].
  destruct (side =? "BUY"); [reflexivity|].
  now rewrite close_position_starting.
Qed.

(** In every reachable state the balance is the starting balance plus the
    realized P&L. *)
Lemma reachable_balance self :
  reachable self ->
  balance self == starting_balance self + realized_pnl (trades_df self).
Proof.
  induction 1 as [now starting
                 |now slug title token side price size ot notes self _ IH
                 |slug px self _ IH
                 |now starting self _ IH].
  - unfold init. now rewrite recalculate_balance_value.
  - destruct (place_order_cases now slug title token side price size ot notes
                self) as [E|[self3 [E _]]]; rewrite E; simpl.
    + exact IH.
    + destruct (recalculate_frame now self3) as [Hs [Ht _]].
      rewrite Hs, Ht. apply recalculate_balance_value.
  - unfold update_position_prices.
    destruct (empty _); exact IH.
  - unfold init.
    destruct (recalculate_frame now
                (mk starting starting (trades_df self) (positions_df self)
                    (balance_history self))) as [Hs [Ht _]].
    rewrite Hs, Ht. apply recalculate_balance_value.
Qed.

(** ** Open BUY trades and positions stay paired *)

Lemma buy_trade_mask_true slug token r :
  buy_trade_mask slug token r = true <->
  TradeRecord.market_slug r = slug /\ TradeRecord.token_id r = token
  /\ TradeRecord.side r = "BUY" /\ TradeRecord.status r = "OPEN".
Proof.
  unfold buy_trade_mask. rewrite !andb_true_iff, !String.eqb_eq. tauto.
Qed.

Lemma position_mask_true slug token p :
  position_mask slug token p = true <->
  Position.market_slug p = slug /\ Position.token_id p = token.
Proof.
  unfold position_mask. rewrite andb_true_iff, !String.eqb_eq. tauto.
Qed.

Lemma recalculate_open_buys now self :
  open_buys_have_positions self ->
  open_buys_have_positions (_recalculate_balance now self).
Proof.
  unfold open_buys_have_positions.
  destruct (recalculate_frame now self) as [_ [Ht Hp]]. now rewrite Ht, Hp.
Qed.

Lemma close_position_open_buys slug token exit_price shares self :
  open_buys_have_positions self ->
  open_buys_have_positions (_close_position slug token exit_price shares self).
Proof.
  intro J.
  destruct (filter (position_mask slug token) (positions_df self))
    as [|position rest] eqn:E.
  - now rewrite close_position_not_found.
  - destruct (close_position_found slug token exit_price shares self _ _ E)
      as [_ [Ht [Hp _]]].
    intros r' Hin Hside Hstatus. rewrite Ht in Hin. rewrite Hp.
    apply in_map_iff in Hin. destruct Hin as [r [Hr Hin]].
    destruct (buy_trade_mask slug token r) eqn:M.
    + subst r'. discriminate Hstatus.
    + subst r'. destruct (J r Hin Hside Hstatus) as [p [Hp_in [Hs Htok]]].
      exists p. repeat split; trivial.
      apply filter_In. split; [exact Hp_in|].
      apply negb_true_iff. destruct (position_mask slug token p) eqn:P;
        [|reflexivity].
      apply position_mask_true in P. destruct P as [P1 P2].
      assert (buy_trade_mask slug token r = true) as M'
        by (apply buy_trade_mask_true; repeat split; congruence).
      congruence.
Qed.

Lemma place_order_open_buys now slug title token side price size order_type
    notes self :
  open_buys_have_positions self ->
  open_buys_have_positions
    (snd (place_order now slug title token side price size order_type notes
            self)).
Proof.
  intro J. unfold place_order.
  destruct ((side =? "BUY") && Qgtb (price * size) (balance self));
    [exact J|].
  cbn [snd]. apply recalculate_open_buys.
  destruct (side =? "BUY") eqn:S.
  - intros r Hin Hside Hstatus. cbn [_add_position positions_df trades_df
      set_positions_df set_balance set_trades_df] in *.
    apply in_app_or in Hin. destruct Hin as [Hin|[<-|[]]].
    + destruct (J r Hin Hside Hstatus) as [p [Hp H]].
      exists p. split; [apply in_or_app; now left|exact H].
    + eexists. split; [apply in_or_app; right; left; reflexivity|].
      split; reflexivity.
  - apply close_position_open_buys.
    intros r Hin Hside Hstatus. cbn [trades_df positions_df set_trades_df] in *.
    apply in_app_or in Hin. destruct Hin as [Hin|[<-|[]]].
    + exact (J r Hin Hside Hstatus).
    + cbn [TradeRecord.side] in Hside. apply String.eqb_neq in S. contradiction.
Qed.

Lemma update_position_prices_open_buys slug current_price self :
  open_buys_have_positions self ->
  open_buys_have_positions (update_position_prices slug current_price self).
Proof.
  intro J. unfold update_position_prices.
  destruct (empty _); [exact J|].
  intros r Hin Hside Hstatus. cbn [trades_df positions_df set_positions_df] in *.
  destruct (J r Hin Hside Hstatus) as [p [Hp [Hs Ht]]].
  exists (if Position.market_slug p =? slug
          then Position.mark current_price p else p).
  split.
  - apply in_map_iff. exists p. split; [reflexivity|exact Hp].
  - destruct (Position.market_slug p =? slug); split; assumption.
Qed.

Lemma reachable_open_buys self :
  reachable self -> open_buys_have_positions self.
Proof.
  induction 1 as [now starting
                 |now slug title token side price size ot notes self _ IH
                 |slug px self _ IH
                 |now starting self _ IH].
  - unfold init. apply recalculate_open_buys. intros r [].
  - now apply place_order_open_buys.
  - now apply update_position_prices_open_buys.
  - unfold init. apply recalculate_open_buys. exact IH.
Qed.

(** With no position on a pair, no trade of the pair is an open BUY. *)
Lemma no_position_no_open_buy slug token self :
  open_buys_have_positions self ->
  filter (position_mask slug token) (positions_df self) = [] ->
  filter (buy_trade_mask slug token) (trades_df self) = [].
Proof.
  intros J H.
  destruct (filter (buy_trade_mask slug token) (trades_df self))
    as [|r rest] eqn:E; [reflexivity|exfalso].
  assert (In r (filter (buy_trade_mask slug token) (trades_df self))) as Hin
    by (rewrite E; now left).
  apply filter_In in Hin. destruct Hin as [Hin M].
  apply buy_trade_mask_true in M. destruct M as [M1 [M2 [M3 M4]]].
  destruct (J r Hin M3 M4) as [p [Hp [Hs Ht]]].
  assert (In p (filter (position_mask slug token) (positions_df self))) as Hp'.
  { apply filter_In. split; [exact Hp|].
    apply position_mask_true. split; congruence. }
  rewrite H in Hp'. destruct Hp'.
Qed.

(** ** The ledger claims *)

Lemma realized_pnl_open_row trades r :
  TradeRecord.status r = "OPEN" ->
  realized_pnl (trades ++ [r]) = realized_pnl trades.
Proof.
  intro H. rewrite !realized_pnl_sum, filter_app. cbn [filter].
  unfold is_closed at 2. rewrite H. cbn [String.eqb Ascii.eqb Bool.eqb].
  now rewrite app_nil_r.
Qed.

(** C10: after every completed [place_order] call on a reachable state the
    balance is [starting_balance] plus the sum of [pnl] over the trades
    whose status is CLOSED; a recorded BUY therefore leaves the balance
    where it was, its cost is not subtracted. *)
Theorem C10_balance_is_starting_plus_realized :
  forall self, reachable self ->
  forall now slug title token side price size order_type notes,
    let r := place_order now slug title token side price size order_type
               notes self in
    balance (snd r)
    == starting_balance (snd r)
       + sum (map TradeRecord.pnl (filter is_closed (trades_df (snd r))))
    /\ (side = "BUY" -> price * size <= balance self ->
        fst r = Some ("PAPER_" ++ strftime now)
        /\ balance (snd r) == balance self).
Proof.
  intros self R now slug title token side price size ot notes r. split.
  - rewrite <- realized_pnl_sum. apply reachable_balance.
    subst r. now apply reachable_place_order.
  - intros -> Hle. subst r. rewrite (place_order_buy _ _ _ _ _ _ _ _ _ Hle).
    split; [reflexivity|]. cbn [snd].
    rewrite recalculate_balance_value.
    cbn [_add_position set_positions_df set_balance set_trades_df
         starting_balance trades_df].
    rewrite realized_pnl_open_row by reflexivity.
    symmetry. now apply reachable_balance.
Qed.

(** C10 at the second order of the source's example run. *)
Lemma C10_witness :
  let r := place_order t0 "bitcoin-100k-2024" "Will Bitcoin hit $100k in 2024?"
             "YES_TOKEN_456" "BUY" (45 # 100) 50 "LIMIT" "Whale copy trade"
             fresh in
  balance (snd r)
  == starting_balance (snd r)
     + sum (map TradeRecord.pnl (filter is_closed (trades_df (snd r))))
  /\ fst r = Some ("PAPER_" ++ strftime t0)
  /\ balance (snd r) == balance fresh.
Proof.
  destruct (C10_balance_is_starting_plus_realized fresh
              (reachable_fresh t0 10000) t0 "bitcoin-100k-2024"
              "Will Bitcoin hit $100k in 2024?" "YES_TOKEN_456" "BUY"
              (45 # 100) 50 "LIMIT" "Whale copy trade") as [H1 H2].
  split; [exact H1|].
  apply H2; [reflexivity|]. vm_compute. discriminate.
Defined.

(** C5: [_recalculate_balance] is idempotent on the account values: a second
    call right after a first one gives the same balance and the same
    total P&L; on a ledger with trades each call appends one snapshot and
    the two snapshots carry the same balance and total P&L, on an empty
    ledger no snapshot is written. *)
Theorem C5_recalculate_balance_idempotent :
  forall now1 now2 self,
    let once := _recalculate_balance now1 self in
    let twice := _recalculate_balance now2 once in
    balance twice = balance once
    /\ total_pnl twice = total_pnl once
    /\ starting_balance twice = starting_balance once
    /\ trades_df twice = trades_df once
    /\ positions_df twice = positions_df once
    /\ ((trades_df self = []
         /\ balance_history twice = balance_history self)
        \/ (trades_df self <> []
            /\ balance_history once
               = (balance_history self
                  ++ [BalanceSnapshot.mk (isoformat now1) (balance once)
                        (total_pnl once)])%list
            /\ balance_history twice
               = (balance_history once
                  ++ [BalanceSnapshot.mk (isoformat now2) (balance once)
                        (total_pnl once)])%list)).
Proof.
  intros now1 now2 self once twice. subst once twice.
  unfold _recalculate_balance, total_pnl.
  destruct (empty (trades_df self)) eqn:E.
  - cbn [trades_df set_balance starting_balance]. rewrite E.
    repeat split; try reflexivity.
    left. apply empty_nil in E. split; [exact E|reflexivity].
  - cbn [trades_df set_balance set_balance_history starting_balance
         positions_df balance balance_history]. rewrite E.
    cbn [trades_df set_balance set_balance_history starting_balance
         positions_df balance balance_history].
    repeat split; try reflexivity.
    right. split; [|split; reflexivity].
    intro H. rewrite H in E. discriminate E.
Qed.









(** C4, as stated, fails: on a fresh engine a SELL on a pair without a
    position is not rejected, and its row is appended to the trades table. *)
Lemma C4_counterexample :
  let r := place_order t0 "presidential-election-2024"
             "Will Trump win 2024 election?" "YES_TOKEN_123" "SELL"
             (75 # 100) 100 "LIMIT" "Taking profit" fresh in
  filter (position_mask "presidential-election-2024" "YES_TOKEN_123")
    (positions_df fresh) = []
  /\ ~ (fst r = None
        /\ balance (snd r) == balance fresh
        /\ trades_df (snd r) = trades_df fresh
        /\ positions_df (snd r) = positions_df fresh).
Proof.
  split; [reflexivity|].
  intros [H _]. vm_compute in H. discriminate H.
Qed.

(** C4, amended: a SELL (any side other than BUY) on a pair with no open
    position is not rejected.  [place_order] returns the new trade id,
    appends the order's row (status OPEN, pnl 0) to the trades table and
    one snapshot to the balance history, leaves the positions table
    unchanged and sets the balance to the starting balance plus the realized
    P&L of the old trades, which in a reachable state is the balance before
    the call. *)
Theorem C4_sell_without_position :
  forall now slug title token side price size order_type notes self,
    side <> "BUY" ->
    filter (position_mask slug token) (positions_df self) = [] ->
    let r := place_order now slug title token side price size order_type
               notes self in
    fst r = Some ("PAPER_" ++ strftime now)
    /\ trades_df (snd r)
       = (trades_df self
          ++ [new_trade now slug title token side price size order_type
                notes])%list
    /\ positions_df (snd r) = positions_df self
    /\ balance (snd r)
       = starting_balance self + realized_pnl (trades_df self)
    /\ (reachable self -> balance (snd r) == balance self)
    /\ balance_history (snd r)
       = (balance_history self
          ++ [BalanceSnapshot.mk (isoformat now) (balance (snd r))
                (total_pnl self)])%list.
Proof.
  intros now slug title token side price size ot notes self Hside Hpos r.
  subst r. rewrite place_order_sell by exact Hside. cbn [fst snd].
  rewrite close_position_not_found by exact Hpos.
  unfold _recalculate_balance, total_pnl.
  cbn [trades_df set_trades_df]. rewrite empty_app_row.
  cbn [trades_df positions_df balance starting_balance balance_history
       set_trades_df set_balance set_balance_history].
  fold (new_trade now slug title token side price size ot notes).
  rewrite realized_pnl_open_row by reflexivity.
  repeat split; try reflexivity.
  intro R. symmetry. now apply reachable_balance.
Qed.

(** C4, amended, at a SELL on a fresh engine. *)
Lemma C4_witness :
  let r := place_order t0 "presidential-election-2024"
             "Will Trump win 2024 election?" "YES_TOKEN_123" "SELL"
             (75 # 100) 100 "LIMIT" "Taking profit" fresh in
  fst r = Some ("PAPER_" ++ strftime t0)
  /\ List.length (trades_df (snd r)) = 1%nat
  /\ positions_df (snd r) = positions_df fresh
  /\ balance (snd r) == balance fresh.
Proof.
  destruct (C4_sell_without_position t0 "presidential-election-2024"
              "Will Trump win 2024 election?" "YES_TOKEN_123" "SELL"
              (75 # 100) 100 "LIMIT" "Taking profit" fresh)
    as [H1 [H2 [H3 [_ [H5 _]]]]].
  - discriminate.
  - reflexivity.
  - split; [exact H1|]. split; [rewrite H2; reflexivity|].
    split; [exact H3|]. apply H5. apply reachable_fresh.
Defined.

(** C1 (evaluation): the first order of the source's example run.  The BUY
    of 100 shares at 0.65 passes the balance check and is recorded with its
    position, but the balance after the call is still 10000, not
    10000 - 65: the debit is overwritten by the recalculation that ends
    [place_order]. *)
Lemma C1_buy_debit_is_overwritten :
  let r := place_order t0 "presidential-election-2024"
             "Will Trump win 2024 election?" "YES_TOKEN_123" "BUY"
             (65 # 100) 100 "LIMIT" "AI signal - 85% confidence" fresh in
  (65 # 100) * 100 <= balance fresh
  /\ fst r = Some ("PAPER_" ++ strftime t0)
  /\ List.length (trades_df (snd r)) = 1%nat
  /\ List.length (positions_df (snd r)) = 1%nat
  /\ balance (snd r) == 10000
  /\ ~ balance (snd r) == balance fresh - (65 # 100) * 100.
Proof.
  repeat split; try reflexivity.
  - vm_compute. discriminate.
  - vm_compute. discriminate.
Qed.

(** C2 (evaluation): with a starting balance of 100, two BUYs of 100 USD
    each on different markets both pass the balance check, because the first
    debit is overwritten; selling both at 0.10 realizes a loss of 160.  All
    four calls return a trade id and the balance ends at -60. *)
Lemma C2_balance_goes_negative :
  fst overdraw_run = [Some "PAPER_20240101000000"; Some "PAPER_20240101000000";
                      Some "PAPER_20240101000000"; Some "PAPER_20240101000000"]
  /\ 0 <= starting_balance (snd overdraw_run)
  /\ balance (snd overdraw_run) == - (60)
  /\ balance (snd overdraw_run) < 0.
Proof.
  repeat split; try reflexivity.
  vm_compute. discriminate.
Qed.

(** C6 (evaluation): two BUYs into the same pair, of 65 and 35 USD, are
    both recorded and leave two position rows for that pair.  The SELL that
    follows shows that [_close_position] counts on a single row: it reads
    the entry value of the first row only, removes both rows and writes the
    same pnl, 105 - 65 = 40, on both BUY trades, so the balance gains 80
    where the two positions together made 5. *)
Lemma C6_two_buys_two_positions :
  let r1 := place_order t0 "presidential-election-2024"
              "Will Trump win 2024 election?" "YES_TOKEN_123" "BUY"
              (65 # 100) 100 "LIMIT" "" fresh in
  let r2 := place_order t0 "presidential-election-2024"
              "Will Trump win 2024 election?" "YES_TOKEN_123" "BUY"
              (70 # 100) 50 "LIMIT" "" (snd r1) in
  let r3 := place_order t0 "presidential-election-2024"
              "Will Trump win 2024 election?" "YES_TOKEN_123" "SELL"
              (70 # 100) 150 "LIMIT" "" (snd r2) in
  fst r1 = Some ("PAPER_" ++ strftime t0)
  /\ fst r2 = Some ("PAPER_" ++ strftime t0)
  /\ List.length
       (filter (position_mask "presidential-election-2024" "YES_TOKEN_123")
          (positions_df (snd r2))) = 2%nat
  /\ positions_df (snd r3) = []
  /\ map TradeRecord.status (trades_df (snd r3)) = ["CLOSED"; "CLOSED"; "OPEN"]
  /\ Forall2 Qeq (map TradeRecord.pnl (trades_df (snd r3))) [40; 40; 0]
  /\ balance (snd r3) == 10080.
Proof.
  repeat split; try reflexivity.
  repeat constructor; reflexivity.
Qed.

(** ** The whale classifier and the wallet registry *)

Import WhaleTrackerAgent.

(** The copy decision never touches the whale-trade log nor its counter. *)
Lemma evaluate_copy_trade_frame cfg ext now slug title whale_side whale_size
    wallet win_rate self paper_engine :
  let w' := _evaluate_copy_trade cfg ext now slug title whale_side whale_size
              wallet win_rate (self, paper_engine) in
  whale_trades_detected (fst w') = whale_trades_detected self
  /\ whale_trades_df (fst w') = whale_trades_df self
  /\ whale_wallets_df (fst w') = whale_wallets_df self
  /\ total_trades_tracked (fst w') = total_trades_tracked self.
Proof.
  unfold _evaluate_copy_trade.
  destruct (negb _); [repeat split; reflexivity|].
  destruct (Qltb _ _); [repeat split; reflexivity|].
  destruct (AUTO_COPY_ENABLED cfg); [|repeat split; reflexivity].
  destruct (place_market_order _ _ _ _ _ _ _ _ _ _) as [order_id engine'].
  repeat split; reflexivity.
Qed.

Lemma Qgeb_true (x y : Q) : Qgeb x y = true <-> y <= x.
Proof. unfold Qgeb. apply Qle_bool_iff. Qed.

Lemma Qgeb_false (x y : Q) : Qgeb x y = false <-> x < y.
Proof.
  unfold Qgeb. split; intro H.
  - apply Qnot_le_lt. intro Hle. apply Qle_bool_iff in Hle. congruence.
  - destruct (Qle_bool y x) eqn:E; [|reflexivity].
    apply Qle_bool_iff in E. exfalso. apply (Qlt_not_le _ _ H E).
Qed.

(** C8: for a trade event with numeric price and size the classifier
    computes [usd_value = price * size] and flags the event, that is hands
    it to [process_whale_trade], which counts it as a whale trade, exactly
    when [usd_value] is at least the threshold, which is 10000 in the
    source's settings.  A flagged event whose title and wallet can be
    sliced is logged with that value; one whose title or wallet cannot be
    sliced is counted and not logged, the exception being caught; an event
    below the threshold is counted as tracked and nothing else. *)
Theorem C8_whale_classifier :
  forall cfg ext now slug ttl wallet outcome p s self paper_engine,
    let payload := mk_Payload slug ttl wallet outcome (numeric p) (numeric s) in
    let w' := on_ws_message cfg ext now
                (object (Some "orders_matched") (Some "activity") payload)
                (self, paper_engine) in
    MIN_WHALE_TRADE_SIZE default_config = 10000
    /\ total_trades_tracked (fst w') = (total_trades_tracked self + 1)%Z
    /\ (MIN_WHALE_TRADE_SIZE cfg <= p * s ->
        whale_trades_detected (fst w') = (whale_trades_detected self + 1)%Z
        /\ (forall market_title address,
              text_get ttl "Unknown" = Some market_title ->
              text_get wallet "Unknown" = Some address ->
              exists row,
                whale_trades_df (fst w')
                = (whale_trades_df self ++ [row])%list
                /\ WhaleTrade.market_title row = market_title
                /\ WhaleTrade.wallet_address row = address
                /\ WhaleTrade.price row = p /\ WhaleTrade.size row = s
                /\ WhaleTrade.usd_value row = p * s)
        /\ (text_get ttl "Unknown" = None
            \/ text_get wallet "Unknown" = None ->
            whale_trades_df (fst w') = whale_trades_df self))
    /\ (p * s < MIN_WHALE_TRADE_SIZE cfg ->
        whale_trades_detected (fst w') = whale_trades_detected self
        /\ whale_trades_df (fst w') = whale_trades_df self).
Proof.
  intros cfg ext now slug ttl wallet outcome p s self paper_engine payload w'.
  split; [reflexivity|].
  subst w'. unfold on_ws_message.
  replace (get_eqb (Some "orders_matched") "subscribed") with false
    by reflexivity.
  replace (get_eqb (Some "orders_matched") "pong") with false by reflexivity.
  replace (get_eqb (Some "activity") "activity"
           && get_eqb (Some "orders_matched") "orders_matched")
    with true by reflexivity.
  subst payload. cbn [price size float_get].
  destruct (Qgeb (p * s) (MIN_WHALE_TRADE_SIZE cfg)) eqn:E.
  - apply Qgeb_true in E. unfold process_whale_trade. cbn [title trader].
    assert (forall x : Prop, p * s < MIN_WHALE_TRADE_SIZE cfg -> x) as Hlt
      by (intros x Hlt; exfalso; apply (Qlt_not_le _ _ Hlt E)).
    destruct (text_get ttl "Unknown") as [market_title|];
      [destruct (text_get wallet "Unknown") as [address|]|].
    + match goal with
      | |- context [if ?c then _ else _] => destruct c
      end.
      * match goal with
        | |- context [_evaluate_copy_trade ?a ?b ?c ?d ?e ?f ?g ?h ?i
                        (?x, ?y)] =>
            destruct (evaluate_copy_trade_frame a b c d e f g h i x y)
              as [H1 [H2 [_ H4]]]
        end.
        rewrite H1, H2, H4. cbn [whale_trades_detected whale_trades_df
                                 total_trades_tracked].
        split; [reflexivity|]. split; [|apply Hlt].
        intros _. split; [reflexivity|]. split.
        -- intros mt ad Hm Ha. injection Hm as <-. injection Ha as <-.
           eexists. split; [reflexivity|]. repeat split; reflexivity.
        -- intros [H|H]; discriminate H.
      * cbn [fst whale_trades_detected whale_trades_df total_trades_tracked].
        split; [reflexivity|]. split; [|apply Hlt].
        intros _. split; [reflexivity|]. split.
        -- intros mt ad Hm Ha. injection Hm as <-. injection Ha as <-.
           eexists. split; [reflexivity|]. repeat split; reflexivity.
        -- intros [H|H]; discriminate H.
    + cbn [fst whale_trades_detected whale_trades_df total_trades_tracked].
      split; [reflexivity|]. split; [|apply Hlt].
      intros _. split; [reflexivity|]. split.
      * intros mt ad _ Ha. discriminate Ha.
      * intros _. reflexivity.
    + cbn [fst whale_trades_detected whale_trades_df total_trades_tracked].
      split; [reflexivity|]. split; [|apply Hlt].
      intros _. split; [reflexivity|]. split.
      * intros mt ad Hm _. discriminate Hm.
      * intros _. reflexivity.
  - apply Qgeb_false in E.
    cbn [fst whale_trades_detected whale_trades_df total_trades_tracked].
    split; [reflexivity|]. split.
    + intro Hle. exfalso. apply (Qlt_not_le _ _ E Hle).
    + intros _. split; reflexivity.
Qed.

(** C8 at the two events of the specification: 600,000 shares at 0.02 are
    worth 12,000 USD and flagged, 100,000 shares at 0.02 are worth 2,000 USD
    and not flagged; and at the first event with a null title, which is
    counted and not logged. *)
Lemma C8_witness :
  let flagged := on_ws_message default_config offline t0
                   (trade_event "fed-rate-cut" "0xwhale" "YES" (2 # 100) 600000)
                   (idle, Some fresh) in
  let dropped := on_ws_message default_config offline t0
                   (trade_event "fed-rate-cut" "0xwhale" "YES" (2 # 100) 100000)
                   (idle, Some fresh) in
  let untitled := on_ws_message default_config offline t0
                    (object (Some "orders_matched") (Some "activity")
                       (mk_Payload (Some "fed-rate-cut") not_text
                          (text "0xwhale") (Some "YES") (numeric (2 # 100))
                          (numeric 600000)))
                    (idle, Some fresh) in
  (2 # 100) * 600000 == 12000
  /\ whale_trades_detected (fst flagged) = 1%Z
  /\ List.length (whale_trades_df (fst flagged)) = 1%nat
  /\ (2 # 100) * 100000 == 2000
  /\ whale_trades_detected (fst dropped) = 0%Z
  /\ whale_trades_df (fst dropped) = []
  /\ whale_trades_detected (fst untitled) = 1%Z
  /\ whale_trades_df (fst untitled) = [].
Proof.
  intros flagged dropped untitled.
  destruct (C8_whale_classifier default_config offline t0
              (Some "fed-rate-cut") (text "fed-rate-cut") (text "0xwhale")
              (Some "YES") (2 # 100) 600000 idle (Some fresh))
    as [_ [_ [F _]]].
  destruct F as [F1 _]; [vm_compute; discriminate|].
  destruct (C8_whale_classifier default_config offline t0
              (Some "fed-rate-cut") (text "fed-rate-cut") (text "0xwhale")
              (Some "YES") (2 # 100) 100000 idle (Some fresh))
    as [_ [_ [_ D]]].
  destruct D as [D1 D2]; [reflexivity|].
  destruct (C8_whale_classifier default_config offline t0
              (Some "fed-rate-cut") not_text (text "0xwhale")
              (Some "YES") (2 # 100) 600000 idle (Some fresh))
    as [_ [_ [U _]]].
  destruct U as [U1 [_ U2]]; [vm_compute; discriminate|].
  split; [reflexivity|]. split; [exact F1|].
  split; [reflexivity|].
  split; [reflexivity|]. split; [exact D1|]. split; [exact D2|].
  split; [exact U1|]. apply U2. left. reflexivity.
Defined.

Lemma existsb_wallet_mask wallet df :
  existsb (wallet_mask wallet) df = true <->
  exists r, In r df /\ WhaleWallet.wallet_address r = wallet.
Proof.
  rewrite existsb_exists. unfold wallet_mask.
  split; intros [r [H1 H2]]; exists r; split; trivial;
    now apply String.eqb_eq.
Qed.

(** What a sighting does to the row of a wallet that is already known. *)
Lemma sighting_row now stats r :
  let r' := sighting now stats r in
  WhaleWallet.wallet_address r' = WhaleWallet.wallet_address r
  /\ WhaleWallet.first_seen r' = WhaleWallet.first_seen r
  /\ WhaleWallet.last_seen r' = isoformat now
  /\ WhaleWallet.trade_count r' = (WhaleWallet.trade_count r + 1)%Z
  /\ (stats <> [] ->
      WhaleWallet.win_rate r' = dict_get stats "win_rate" 0
      /\ WhaleWallet.total_volume r' = dict_get stats "total_volume" 0
      /\ WhaleWallet.profit_loss r' = dict_get stats "profit_loss" 0)
  /\ (stats = [] ->
      WhaleWallet.win_rate r' = WhaleWallet.win_rate r
      /\ WhaleWallet.total_volume r' = WhaleWallet.total_volume r
      /\ WhaleWallet.profit_loss r' = WhaleWallet.profit_loss r).
Proof.
  unfold sighting. destruct stats as [|kv stats]; cbn [empty];
    repeat split; try reflexivity; try congruence; try discriminate.
Qed.

(** C9, as stated, fails: the insert branch reads the clock once for
    [first_seen] and once again for [last_seen], so with two readings that
    differ the new row does not have [first_seen = last_seen]. *)
Lemma C9_counterexample :
  let now := mk_datetime "2024-01-02T09:30:00.000118" "20240102093000" in
  let later := mk_datetime "2024-01-02T09:30:00.000131" "20240102093000" in
  ~ (exists row,
       _update_whale_wallet now later "0xwhale" [] [] = [row]
       /\ WhaleWallet.trade_count row = 1%Z
       /\ WhaleWallet.first_seen row = WhaleWallet.last_seen row).
Proof.
  intros now later [row [H [_ Hseen]]].
  injection H as <-. discriminate Hseen.
Qed.

(** C9, amended: a sighting of an unseen wallet appends one row for it with
    [trade_count = 1], [first_seen] set from the first clock reading of the
    call and [last_seen] from the second, so that the two agree when the
    readings do; a sighting of a known wallet keeps the table's rows in
    place, leaves the rows of other wallets as they are and, on each row of
    the wallet, adds one to [trade_count], sets [last_seen] to now, keeps
    [first_seen], and overwrites [win_rate], [total_volume] and
    [profit_loss] from [stats] when [stats] is non-empty and keeps them
    when it is empty. *)
Theorem C9_record_sighting :
  forall now later wallet stats df,
    let df' := _update_whale_wallet now later wallet stats df in
    ((forall r, In r df -> WhaleWallet.wallet_address r <> wallet) ->
     exists row,
       df' = (df ++ [row])%list
       /\ WhaleWallet.wallet_address row = wallet
       /\ WhaleWallet.trade_count row = 1%Z
       /\ WhaleWallet.first_seen row = isoformat now
       /\ WhaleWallet.last_seen row = isoformat later)
    /\ ((exists r, In r df /\ WhaleWallet.wallet_address r = wallet) ->
        List.length df' = List.length df
        /\ forall i r, nth_error df i = Some r ->
           exists r', nth_error df' i = Some r'
             /\ (WhaleWallet.wallet_address r <> wallet -> r' = r)
             /\ (WhaleWallet.wallet_address r = wallet ->
                 WhaleWallet.wallet_address r' = wallet
                 /\ WhaleWallet.first_seen r' = WhaleWallet.first_seen r
                 /\ WhaleWallet.last_seen r' = isoformat now
                 /\ WhaleWallet.trade_count r'
                    = (WhaleWallet.trade_count r + 1)%Z
                 /\ (stats <> [] ->
                     WhaleWallet.win_rate r' = dict_get stats "win_rate" 0
                     /\ WhaleWallet.total_volume r'
                        = dict_get stats "total_volume" 0
                     /\ WhaleWallet.profit_loss r'
                        = dict_get stats "profit_loss" 0)
                 /\ (stats = [] ->
                     WhaleWallet.win_rate r' = WhaleWallet.win_rate r
                     /\ WhaleWallet.total_volume r'
                        = WhaleWallet.total_volume r
                     /\ WhaleWallet.profit_loss r'
                        = WhaleWallet.profit_loss r))).
Proof.
  intros now later wallet stats df df'. subst df'.
  unfold _update_whale_wallet.
  split.
  - intro Hunseen.
    destruct (existsb (wallet_mask wallet) df) eqn:E.
    + apply existsb_wallet_mask in E. destruct E as [r [Hin Hr]].
      exfalso. exact (Hunseen r Hin Hr).
    + eexists. split; [reflexivity|]. repeat split; reflexivity.
  - intro Hseen. apply existsb_wallet_mask in Hseen. rewrite Hseen.
    split; [apply length_map|].
    intros i r Hi. rewrite nth_error_map, Hi. cbn [option_map].
    eexists. split; [reflexivity|]. unfold wallet_mask.
    destruct (WhaleWallet.wallet_address r =? wallet) eqn:E.
    + apply String.eqb_eq in E. split; [intro H; contradiction|].
      intros _. destruct (sighting_row now stats r) as [H1 [H2 [H3 [H4 [H5 H6]]]]].
      rewrite H1. repeat split; trivial; try (now apply H5); now apply H6.
    + apply String.eqb_neq in E. split; [reflexivity|].
      intro H. contradiction.
Qed.

(** C9, amended, on a registry of one wallet: a first sighting with two
    clock readings, a second sighting with an empty stats lookup, and a
    second sighting with stats that carry a win rate only. *)
Lemma C9_witness :
  let t1 := mk_datetime "2024-01-02T09:30:00.000118" "20240102093000" in
  let t2 := mk_datetime "2024-01-02T09:30:00.000131" "20240102093000" in
  (exists row,
     _update_whale_wallet t1 t2 "0xwhale" [] [] = [row]
     /\ WhaleWallet.trade_count row = 1%Z
     /\ WhaleWallet.first_seen row = "2024-01-02T09:30:00.000118"
     /\ WhaleWallet.last_seen row = "2024-01-02T09:30:00.000131")
  /\ _update_whale_wallet t1 t2 "0xwhale" [] one_whale
     = [WhaleWallet.mk "0xwhale" 75 2500000 180000 (isoformat t0)
          (isoformat t1) 2]
  /\ exists r',
       nth_error (_update_whale_wallet t1 t2 "0xwhale" [("win_rate", 80)]
                    one_whale) 0 = Some r'
       /\ WhaleWallet.trade_count r' = 2%Z
       /\ WhaleWallet.win_rate r' = 80
       /\ WhaleWallet.total_volume r' = 0.
Proof.
  intros t1 t2. split; [|split; [reflexivity|]].
  - destruct (C9_record_sighting t1 t2 "0xwhale" [] []) as [Hnew _].
    destruct Hnew as [row [H1 [_ [H3 [H4 H5]]]]]; [intros r []|].
    exists row. repeat split; trivial.
  - destruct (C9_record_sighting t1 t2 "0xwhale" [("win_rate", 80)]
                one_whale) as [_ Hseen].
    destruct Hseen as [_ Hrows].
    + eexists. split; [left; reflexivity|reflexivity].
    + destruct (Hrows 0%nat _ eq_refl) as [r' [Hn [_ Hr]]].
      exists r'. split; [exact Hn|].
      destruct (Hr eq_refl) as [_ [_ [_ [Hc [Hs _]]]]].
      split; [exact Hc|].
      destruct Hs as [Hw [Hv _]]; [discriminate|]. split; assumption.
Defined.

(** ** The copy-trade order *)

(** In paper mode [place_market_order] hands its [size] argument to the
    engine as the number of shares, at the simulated price 0.50: the row
    recorded for a BUY is worth half of [size] in USD. *)
Lemma paper_market_order_records_size_as_shares cfg ext now token size slug
    title notes engine :
  PAPER_TRADING_ENABLED cfg = true ->
  (50 # 100) * size <= PaperTradingEngine.balance engine ->
  let r := place_market_order cfg ext now token size "BUY" slug title notes
             (Some engine) in
  let row := new_trade now (str_or slug "unknown")
               (str_or title "Unknown Market") token "BUY" (50 # 100) size
               "MARKET" (str_or notes "Market order (simulated price)") in
  fst r = Some ("PAPER_" ++ strftime now)
  /\ option_map trades_df (snd r) = Some (trades_df engine ++ [row])%list
  /\ TradeRecord.size row = size
  /\ TradeRecord.usd_value row == size / 2.
Proof.
  intros Hpaper Hle r row. subst r. unfold place_market_order.
  rewrite Hpaper, (place_order_buy _ _ _ _ _ _ _ _ _ Hle). cbn [fst snd].
  split; [reflexivity|]. split.
  - cbn [option_map]. f_equal.
    match goal with
    | |- context [_recalculate_balance now ?s] =>
        destruct (recalculate_frame now s) as [_ [H _]]; rewrite H
    end.
    reflexivity.
  - split; [reflexivity|]. subst row. cbn [new_trade TradeRecord.usd_value].
    field.
Qed.

(** In live mode the order sent to the exchange for a BUY carries the best
    ask as its price and the [size] argument as its size. *)
Lemma live_market_order_args cfg ext now token size slug title notes
    paper_engine client ask asks bids :
  PAPER_TRADING_ENABLED cfg = false ->
  poly_client ext = Some client ->
  get_order_book client token = (ask :: asks, bids) ->
  place_market_order cfg ext now token size "BUY" slug title notes
    paper_engine
  = (match post_order client (OrderArgs.mk ask size "BUY" token) with
     | EmptyString => None
     | order_id => Some order_id
     end, paper_engine).
Proof.
  intros Hlive Hclient Hbook. unfold place_market_order, place_limit_order.
  rewrite Hlive, Hclient, Hbook.
  replace (upper "BUY") with "BUY" by reflexivity.
  replace ("BUY" =? "BUY") with true by reflexivity.
  cbn [fst hd_error].
  destruct (post_order client (OrderArgs.mk ask size "BUY" token));
    reflexivity.
Qed.

(** C7 (evaluation): the whale trade is worth 50,000 USD, so the copy size
    is min(5,000, 100) = 100 USD and every check of the decision passes.  The copy signal
    records [our_size = 100] and [executed = true], but the order that
    reaches the ledger is for 100 shares at 0.50, worth 50 USD: the copy
    size was passed on as a number of shares, not converted into shares. *)
Lemma C7_copy_order_not_converted :
  (50 # 100) * 100000 == 50000
  /\ min (50000 * (COPY_PERCENTAGE copy_config / 100))
         (MAX_POSITION_SIZE copy_config) == 100
  /\ map CopySignal.our_size (copy_signals_df (fst copy_run)) = [100]
  /\ map CopySignal.executed (copy_signals_df (fst copy_run)) = [true]
  /\ trades_copied (fst copy_run) = 1%Z
  /\ exists order,
       option_map trades_df (snd copy_run) = Some [order]
       /\ TradeRecord.side order = "BUY"
       /\ TradeRecord.size order = 100
       /\ TradeRecord.price order == 1 # 2
       /\ TradeRecord.usd_value order == 50
       /\ ~ TradeRecord.size order * TradeRecord.price order == 100.
Proof.
  repeat split; try reflexivity.
  eexists. repeat split; try reflexivity.
  vm_compute. discriminate.
Qed.

(** * Further properties of the engine *)

Import PaperTradingEngine.

Lemma recalculate_history now self :
  exists rows,
    balance_history (_recalculate_balance now self)
    = (balance_history self ++ rows)%list
    /\ (List.length rows <= 1)%nat.
Proof.
  unfold _recalculate_balance. destruct (empty (trades_df self)).
  - exists []. split; [now rewrite app_nil_r|auto].
  - eexists [_]. split; [reflexivity|auto].
Qed.

(** X1: [place_order] rejects an order exactly when it is a BUY that costs
    more than the balance; a rejected order changes nothing, and a recorded
    one returns the id built from the clock reading. *)
Theorem place_order_rejects_iff :
  forall now slug title token side price size order_type notes self,
    let r := place_order now slug title token side price size order_type
               notes self in
    (fst r = None <-> side = "BUY" /\ balance self < price * size)
    /\ (fst r = None -> snd r = self)
    /\ (fst r <> None -> fst r = Some ("PAPER_" ++ strftime now)).
Proof.
  intros now slug title token side price size ot notes self r. subst r.
  unfold place_order.
  destruct (side =? "BUY") eqn:S; cbn [andb].
  - apply String.eqb_eq in S.
    destruct (Qgtb (price * size) (balance self)) eqn:G; cbn [fst snd].
    + apply Qgtb_true in G. repeat split; trivial. intro H. now contradiction H.
    + apply Qgtb_false in G. repeat split; try discriminate.
      intros [_ H]. exfalso. apply (Qlt_not_le _ _ H G).
  - apply String.eqb_neq in S. cbn [fst snd].
    repeat split; try discriminate. intros [H _]. contradiction.
Qed.

(** What [place_order] does to the trades table, row by row. *)
Lemma place_order_trades now slug title token side price size order_type
    notes self :
  let self' := snd (place_order now slug title token side price size
                      order_type notes self) in
  trades_df self' = trades_df self
  \/ trades_df self'
     = (trades_df self
        ++ [new_trade now slug title token side price size order_type
              notes])%list
  \/ (side <> "BUY"
      /\ exists pnl,
           trades_df self'
           = map (fun r => if buy_trade_mask slug token r
                           then TradeRecord.close "CLOSED" pnl r else r)
               (trades_df self
                ++ [new_trade now slug title token side price size order_type
                      notes])).
Proof.
  unfold place_order.
  destruct ((side =? "BUY") && Qgtb (price * size) (balance self));
    [left; reflexivity|right].
  cbn [snd].
  match goal with
  | |- context [_recalculate_balance now ?s] =>
      destruct (recalculate_frame now s) as [_ [H _]]; rewrite H; clear H
  end.
  destruct (side =? "BUY") eqn:S.
  - left. reflexivity.
  - apply String.eqb_neq in S.
    match goal with
    | |- context [_close_position slug token price size ?s] => set (s1 := s)
    end.
    destruct (filter (position_mask slug token) (positions_df s1))
      as [|position rest] eqn:E.
    + left. rewrite close_position_not_found by exact E. reflexivity.
    + right. split; [exact S|].
      destruct (close_position_found slug token price size s1 _ _ E)
        as [_ [Ht _]].
      eexists. rewrite Ht. reflexivity.
Qed.

(** An old row after [place_order]: still at its index, untouched or closed
    by this order. *)
Lemma place_order_row_kept now slug title token side price size order_type
    notes self i row :
  nth_error (trades_df self) i = Some row ->
  exists row',
    nth_error
      (trades_df (snd (place_order now slug title token side price size
                         order_type notes self))) i = Some row'
    /\ (row' = row
        \/ (side <> "BUY"
            /\ buy_trade_mask slug token row = true
            /\ row' = TradeRecord.close "CLOSED" (TradeRecord.pnl row') row)).
Proof.
  intro Hi.
  assert (i < List.length (trades_df self))%nat as Hlt
    by (apply nth_error_Some; congruence).
  destruct (place_order_trades now slug title token side price size
              order_type notes self) as [H|[H|[Hside [pnl H]]]]; rewrite H.
  - exists row. split; [exact Hi|now left].
  - exists row. split; [|now left]. now rewrite nth_error_app1.
  - rewrite nth_error_map, nth_error_app1 by exact Hlt.
    rewrite Hi. cbn [option_map]. eexists. split; [reflexivity|].
    destruct (buy_trade_mask slug token row) eqn:M.
    + right. repeat split; trivial.
    + now left.
Qed.

(** The table is one row longer exactly when the order was recorded. *)
Lemma place_order_length now slug title token side price size order_type
    notes self :
  let r := place_order now slug title token side price size order_type
             notes self in
  List.length (trades_df (snd r))
  = (List.length (trades_df self)
     + match fst r with Some _ => 1 | None => 0 end)%nat.
Proof.
  unfold place_order.
  destruct ((side =? "BUY") && Qgtb (price * size) (balance self));
    cbn [fst snd]; [lia|].
  match goal with
  | |- context [_recalculate_balance now ?s] =>
      destruct (recalculate_frame now s) as [_ [Ht _]]; rewrite Ht
  end.
  destruct (side =? "BUY").
  - cbn [_add_position set_positions_df set_balance set_trades_df trades_df].
    rewrite length_app. reflexivity.
  - match goal with
    | |- context [_close_position slug token price size ?s] => set (s1 := s)
    end.
    destruct (filter (position_mask slug token) (positions_df s1))
      as [|position rest] eqn:E.
    + rewrite close_position_not_found by exact E. subst s1.
      cbn [set_trades_df trades_df]. rewrite length_app. reflexivity.
    + destruct (close_position_found slug token price size s1 _ _ E)
        as [_ [Hc _]].
      rewrite Hc, length_map. subst s1. cbn [set_trades_df trades_df].
      rewrite length_app. reflexivity.
Qed.

(** X2: the trades table only grows, and a row changes in one way only.
    After any [place_order] call the table is one row longer if the order
    was recorded and as long as before if it was rejected; every old row is
    still at its index, and it is either untouched or it was an open BUY of
    the order's pair and the order, a SELL, set its status to CLOSED and
    its pnl; its other columns never change. *)
Theorem place_order_keeps_rows :
  forall now slug title token side price size order_type notes self,
    let r := place_order now slug title token side price size order_type
               notes self in
    List.length (trades_df (snd r))
    = (List.length (trades_df self)
       + match fst r with Some _ => 1 | None => 0 end)%nat
    /\ forall i row, nth_error (trades_df self) i = Some row ->
       exists row',
         nth_error (trades_df (snd r)) i = Some row'
         /\ (row' = row
             \/ (side <> "BUY"
                 /\ buy_trade_mask slug token row = true
                 /\ row' = TradeRecord.close "CLOSED" (TradeRecord.pnl row')
                             row)).
Proof.
  intros now slug title token side price size ot notes self r. split.
  - apply place_order_length.
  - intros i row Hi. subst r. now apply place_order_row_kept.
Qed.

Lemma closed_row_not_masked slug token row :
  TradeRecord.status row = "CLOSED" -> buy_trade_mask slug token row = false.
Proof.
  intro H. destruct (buy_trade_mask slug token row) eqn:M; [|reflexivity].
  apply buy_trade_mask_true in M. destruct M as [_ [_ [_ M]]].
  rewrite H in M. discriminate M.
Qed.

(** X3: CLOSED is terminal.  Once a trade row is CLOSED, no later
    [place_order] or [update_position_prices] call of the process changes
    any of its columns, its pnl included, or moves it. *)
Theorem closed_trades_are_final :
  forall self self', evolves self self' ->
  forall i row,
    nth_error (trades_df self) i = Some row ->
    TradeRecord.status row = "CLOSED" ->
    nth_error (trades_df self') i = Some row.
Proof.
  induction 1 as [self
                 |now slug title token side price size ot notes self self' _ IH
                 |slug px self self' _ IH]; intros i row Hi Hc.
  - exact Hi.
  - destruct (place_order_row_kept now slug title token side price size ot
                notes self' i row (IH i row Hi Hc))
      as [row' [Hn [->|[_ [M _]]]]].
    + exact Hn.
    + rewrite closed_row_not_masked in M by exact Hc. discriminate M.
  - unfold update_position_prices. destruct (empty _); now apply IH.
Qed.

(** The round trip of the source's example run, then two more orders on the
    same pair. *)
Lemma closed_trades_are_final_witness :
  let r1 := place_order t0 "presidential-election-2024"
              "Will Trump win 2024 election?" "YES_TOKEN_123" "BUY"
              (65 # 100) 100 "LIMIT" "" fresh in
  let r2 := place_order t0 "presidential-election-2024"
              "Will Trump win 2024 election?" "YES_TOKEN_123" "SELL"
              (75 # 100) 100 "LIMIT" "" (snd r1) in
  let r3 := place_order t0 "presidential-election-2024"
              "Will Trump win 2024 election?" "YES_TOKEN_123" "BUY"
              (50 # 100) 10 "LIMIT" "" (snd r2) in
  let r4 := place_order t0 "presidential-election-2024"
              "Will Trump win 2024 election?" "YES_TOKEN_123" "SELL"
              (10 # 100) 10 "LIMIT" "" (snd r3) in
  nth_error (trades_df (snd r4)) 0
  = Some (TradeRecord.close "CLOSED" ((75 # 100) * 100 - (65 # 100) * 100)
            (new_trade t0 "presidential-election-2024"
               "Will Trump win 2024 election?" "YES_TOKEN_123" "BUY"
               (65 # 100) 100 "LIMIT" "")).
Proof.
  intros r1 r2 r3 r4.
  apply (closed_trades_are_final (snd r2) (snd r4)).
  - subst r4 r3. apply evolves_place_order, evolves_place_order, evolves_refl.
  - reflexivity.
  - reflexivity.
Defined.

(** X4: the balance history is append-only.  Whatever [place_order] and
    [update_position_prices] calls the process makes afterwards, the
    snapshots the engine holds now stay, in order, at the head of the
    history. *)
Theorem balance_history_append_only :
  forall self self', evolves self self' ->
  exists rows,
    balance_history self' = (balance_history self ++ rows)%list.
Proof.
  induction 1 as [self
                 |now slug title token side price size ot notes self self' _ IH
                 |slug px self self' _ IH].
  - exists []. now rewrite app_nil_r.
  - destruct IH as [rows IH]. unfold place_order.
    destruct ((side =? "BUY") && Qgtb (price * size) (balance self'));
      [exists rows; exact IH|].
    cbn [snd].
    match goal with
    | |- context [_recalculate_balance now ?s] =>
        destruct (recalculate_history now s) as [more [Hh _]];
        assert (balance_history s = balance_history self') as Hs
    end.
    { destruct (side =? "BUY"); [reflexivity|].
      match goal with
      | |- context [_close_position slug token price size ?s] => set (s1 := s)
      end.
      destruct (filter (position_mask slug token) (positions_df s1))
        as [|position rest] eqn:E.
      - rewrite close_position_not_found by exact E. reflexivity.
      - destruct (close_position_found slug token price size s1 _ _ E)
          as [_ [_ [_ Hc]]]. rewrite Hc. reflexivity. }
    exists (rows ++ more)%list. rewrite Hh, Hs, IH. now rewrite app_assoc.
  - destruct IH as [rows IH]. exists rows.
    unfold update_position_prices. destruct (empty _); exact IH.
Qed.

(** The source's example run: the snapshot written at the first order is
    still the head of the history after the other two orders. *)
Lemma balance_history_append_only_witness :
  let r1 := place_order t0 "presidential-election-2024"
              "Will Trump win 2024 election?" "YES_TOKEN_123" "BUY"
              (65 # 100) 100 "LIMIT" "AI signal - 85% confidence" fresh in
  let r2 := place_order t0 "bitcoin-100k-2024"
              "Will Bitcoin hit $100k in 2024?" "YES_TOKEN_456" "BUY"
              (45 # 100) 50 "LIMIT" "Whale copy trade" (snd r1) in
  let r3 := place_order t0 "presidential-election-2024"
              "Will Trump win 2024 election?" "YES_TOKEN_123" "SELL"
              (75 # 100) 100 "LIMIT" "Taking profit" (snd r2) in
  balance_history (snd r1) = [BalanceSnapshot.mk (isoformat t0) 10000 0]
  /\ exists rows,
       balance_history (snd r3)
       = (BalanceSnapshot.mk (isoformat t0) 10000 0 :: rows)%list.
Proof.
  intros r1 r2 r3.
  assert (balance_history (snd r1)
          = [BalanceSnapshot.mk (isoformat t0) 10000 0]) as H1
    by reflexivity.
  split; [exact H1|].
  destruct (balance_history_append_only (snd r1) (snd r3)) as [rows H].
  - subst r3 r2. apply evolves_place_order, evolves_place_order, evolves_refl.
  - exists rows. rewrite H, H1. reflexivity.
Defined.

(** ** Positions and open BUY trades *)

Lemma recalculate_positions_have_open_buys now self :
  positions_have_open_buys self ->
  positions_have_open_buys (_recalculate_balance now self).
Proof.
  unfold positions_have_open_buys.
  destruct (recalculate_frame now self) as [_ [Ht Hp]]. now rewrite Ht, Hp.
Qed.

Lemma close_position_positions_have_open_buys slug token exit_price shares
    self :
  positions_have_open_buys self ->
  positions_have_open_buys
    (_close_position slug token exit_price shares self).
Proof.
  intro J.
  destruct (filter (position_mask slug token) (positions_df self))
    as [|position rest] eqn:E.
  - now rewrite close_position_not_found.
  - destruct (close_position_found slug token exit_price shares self _ _ E)
      as [_ [Ht [Hp _]]].
    intros p Hin. rewrite Hp in Hin. apply filter_In in Hin.
    destruct Hin as [Hin Hm]. apply negb_true_iff in Hm.
    destruct (J p Hin) as [r [Hr [H1 [H2 [H3 H4]]]]].
    exists r. split; [|tauto]. rewrite Ht. apply in_map_iff. exists r.
    split; [|exact Hr].
    destruct (buy_trade_mask slug token r) eqn:M; [|reflexivity].
    apply buy_trade_mask_true in M. destruct M as [M1 [M2 _]].
    assert (position_mask slug token p = true) as P
      by (apply position_mask_true; split; congruence).
    congruence.
Qed.

Lemma place_order_positions_have_open_buys now slug title token side price
    size order_type notes self :
  positions_have_open_buys self ->
  positions_have_open_buys
    (snd (place_order now slug title token side price size order_type notes
            self)).
Proof.
  intro J. unfold place_order.
  destruct ((side =? "BUY") && Qgtb (price * size) (balance self));
    [exact J|].
  cbn [snd]. apply recalculate_positions_have_open_buys.
  destruct (side =? "BUY") eqn:S.
  - apply String.eqb_eq in S. subst side.
    intros p Hin. cbn [_add_position positions_df trades_df
      set_positions_df set_balance set_trades_df] in *.
    apply in_app_or in Hin. destruct Hin as [Hin|[<-|[]]].
    + destruct (J p Hin) as [r [Hr H]].
      exists r. split; [apply in_or_app; now left|exact H].
    + eexists. split; [apply in_or_app; right; left; reflexivity|].
      repeat split; reflexivity.
  - apply close_position_positions_have_open_buys.
    intros p Hin. cbn [trades_df positions_df set_trades_df] in *.
    destruct (J p Hin) as [r [Hr H]].
    exists r. split; [apply in_or_app; now left|exact H].
Qed.

Lemma update_position_prices_positions_have_open_buys slug current_price
    self :
  positions_have_open_buys self ->
  positions_have_open_buys (update_position_prices slug current_price self).
Proof.
  intro J. unfold update_position_prices.
  destruct (empty _); [exact J|].
  intros p' Hin. cbn [trades_df positions_df set_positions_df] in *.
  apply in_map_iff in Hin. destruct Hin as [p [Hp Hin]].
  destruct (J p Hin) as [r [Hr [H1 [H2 [H3 H4]]]]].
  exists r. split; [exact Hr|].
  subst p'. destruct (Position.market_slug p =? slug); repeat split; trivial.
Qed.

Lemma reachable_positions_have_open_buys self :
  reachable self -> positions_have_open_buys self.
Proof.
  induction 1 as [now starting
                 |now slug title token side price size ot notes self _ IH
                 |slug px self _ IH
                 |now starting self _ IH].
  - unfold init. apply recalculate_positions_have_open_buys. intros p [].
  - now apply place_order_positions_have_open_buys.
  - now apply update_position_prices_positions_have_open_buys.
  - unfold init. apply recalculate_positions_have_open_buys. exact IH.
Qed.

(** X5: in every reachable state a (market, token) pair has a position row
    exactly when it has a BUY trade whose status is OPEN. *)
Theorem position_iff_open_buy :
  forall self, reachable self ->
  forall slug token,
    (exists p, In p (positions_df self)
               /\ Position.market_slug p = slug
               /\ Position.token_id p = token)
    <-> (exists r, In r (trades_df self)
                   /\ TradeRecord.side r = "BUY"
                   /\ TradeRecord.status r = "OPEN"
                   /\ TradeRecord.market_slug r = slug
                   /\ TradeRecord.token_id r = token).
Proof.
  intros self R slug token. split.
  - intros [p [Hin [H1 H2]]].
    destruct (reachable_positions_have_open_buys self R p Hin)
      as [r [Hr [A [B [C D]]]]].
    exists r. repeat split; congruence.
  - intros [r [Hin [A [B [C D]]]]].
    destruct (reachable_open_buys self R r Hin A B) as [p [Hp [E F]]].
    exists p. repeat split; congruence.
Qed.

Lemma position_iff_open_buy_witness :
  let self := snd (place_order t0 "bitcoin-100k-2024"
                     "Will Bitcoin hit $100k in 2024?" "YES_TOKEN_456" "BUY"
                     (45 # 100) 50 "LIMIT" "" fresh) in
  exists r, In r (trades_df self)
            /\ TradeRecord.side r = "BUY"
            /\ TradeRecord.status r = "OPEN"
            /\ TradeRecord.market_slug r = "bitcoin-100k-2024"
            /\ TradeRecord.token_id r = "YES_TOKEN_456".
Proof.
  intro self.
  apply (position_iff_open_buy self).
  - subst self. apply reachable_place_order, reachable_fresh.
  - eexists. split; [left; reflexivity|]. split; reflexivity.
Defined.

(** ** What a SELL realizes *)




(** ** Marking positions to a price *)

(** X7: [update_position_prices] is pure bookkeeping on the positions of one
    market.  It leaves the balance, the trades and the balance history as
    they are and keeps every position row at its index; a row of another
    market is untouched, and a row of the market gets the new current
    price, [current_value = shares * current_price] and
    [unrealized_pnl = current_value - entry_value], with its entry columns
    unchanged. *)
Theorem update_position_prices_marks :
  forall slug current_price self,
    let self' := update_position_prices slug current_price self in
    balance self' = balance self
    /\ starting_balance self' = starting_balance self
    /\ trades_df self' = trades_df self
    /\ balance_history self' = balance_history self
    /\ List.length (positions_df self') = List.length (positions_df self)
    /\ forall i p, nth_error (positions_df self) i = Some p ->
       exists p',
         nth_error (positions_df self') i = Some p'
         /\ Position.market_slug p' = Position.market_slug p
         /\ Position.token_id p' = Position.token_id p
         /\ Position.entry_price p' = Position.entry_price p
         /\ Position.shares p' = Position.shares p
         /\ Position.entry_value p' = Position.entry_value p
         /\ (Position.market_slug p <> slug -> p' = p)
         /\ (Position.market_slug p = slug ->
             Position.current_price p' = current_price
             /\ Position.current_value p' = Position.shares p * current_price
             /\ Position.unrealized_pnl p'
                = Position.current_value p' - Position.entry_value p).
Proof.
  intros slug px self self'. subst self'. unfold update_position_prices.
  destruct (empty (filter (fun r => Position.market_slug r =? slug)
                     (positions_df self))) eqn:E.
  - apply empty_nil in E.
    do 5 (split; [reflexivity|]).
    intros i p Hi. exists p. split; [exact Hi|].
    do 5 (split; [reflexivity|]). split; [reflexivity|].
    intro Hs. exfalso.
    assert (In p (filter (fun r => Position.market_slug r =? slug)
                    (positions_df self))) as Hin.
    { apply filter_In. split; [eapply nth_error_In; eauto|].
      now apply String.eqb_eq. }
    rewrite E in Hin. destruct Hin.
  - cbn [balance starting_balance trades_df balance_history positions_df
         set_positions_df].
    do 4 (split; [reflexivity|]). split; [apply length_map|].
    intros i p Hi. rewrite nth_error_map, Hi. cbn [option_map].
    eexists. split; [reflexivity|].
    destruct (Position.market_slug p =? slug) eqn:S.
    + apply String.eqb_eq in S. do 5 (split; [reflexivity|]).
      split; [intro H; contradiction|].
      intros _. repeat split; reflexivity.
    + apply String.eqb_neq in S. do 5 (split; [reflexivity|]).
      split; [reflexivity|]. intro H. contradiction.
Qed.

Lemma mark_mark p1 p2 r :
  Position.mark p2 (Position.mark p1 r) = Position.mark p2 r.
Proof. reflexivity. Qed.

Lemma filter_market_map_mark slug px positions :
  filter (fun r => Position.market_slug r =? slug)
    (map (fun r => if Position.market_slug r =? slug
                   then Position.mark px r else r) positions)
  = map (Position.mark px)
      (filter (fun r => Position.market_slug r =? slug) positions).
Proof.
  induction positions as [|r positions IH]; [reflexivity|].
  cbn [map filter]. destruct (Position.market_slug r =? slug) eqn:S.
  - cbn [Position.mark Position.market_slug]. rewrite S. cbn [map].
    now rewrite IH.
  - rewrite S. exact IH.
Qed.

(** X8: marking a market twice is the same as marking it once with the last
    price: the last write wins and no trace of the earlier price stays. *)
Theorem update_position_prices_last_wins :
  forall slug p1 p2 self,
    update_position_prices slug p2 (update_position_prices slug p1 self)
    = update_position_prices slug p2 self.
Proof.
  intros slug p1 p2 self. unfold update_position_prices.
  destruct (empty (filter (fun r => Position.market_slug r =? slug)
                     (positions_df self))) eqn:E.
  - rewrite E. reflexivity.
  - cbn [positions_df set_positions_df].
    rewrite filter_market_map_mark.
    destruct (filter (fun r => Position.market_slug r =? slug)
                (positions_df self)) as [|r rest]; [discriminate E|].
    cbn [map empty]. unfold set_positions_df.
    cbn [starting_balance balance trades_df balance_history positions_df].
    f_equal. rewrite map_map. apply map_ext. intro a.
    destruct (Position.market_slug a =? slug) eqn:S.
    + cbn [Position.mark Position.market_slug]. rewrite S. reflexivity.
    + rewrite S. reflexivity.
Qed.

(** ** Performance summary *)

Lemma len_nonneg {A : Type} (df : list A) : 0 <= len df.
Proof.
  unfold len. replace 0 with (inject_Z 0) by reflexivity.
  rewrite <- Zle_Qle. lia.
Qed.

Lemma len_pos {A : Type} (df : list A) : df <> [] -> 0 < len df.
Proof.
  intro H. unfold len. replace 0 with (inject_Z 0) by reflexivity.
  rewrite <- Zlt_Qlt. destruct df; [contradiction|]. cbn [List.length]. lia.
Qed.

Lemma len_filter_le {A : Type} (f : A -> bool) (df : list A) :
  len (filter f df) <= len df.
Proof.
  unfold len. rewrite <- Zle_Qle. apply inj_le. apply filter_length_le.
Qed.

Lemma sum_positive (xs : list Q) :
  xs <> [] -> Forall (fun x => 0 < x) xs -> 0 < sum xs.
Proof.
  induction xs as [|x xs IH]; [contradiction|].
  intros _ H. inversion H as [|? ? Hx Hxs]; subst. cbn [sum].
  destruct xs as [|y ys].
  - cbn [sum]. lra.
  - assert (0 < sum (y :: ys)) by (apply IH; [discriminate|exact Hxs]). lra.
Qed.

Lemma sum_negative (xs : list Q) :
  xs <> [] -> Forall (fun x => x < 0) xs -> sum xs < 0.
Proof.
  induction xs as [|x xs IH]; [contradiction|].
  intros _ H. inversion H as [|? ? Hx Hxs]; subst. cbn [sum].
  destruct xs as [|y ys].
  - cbn [sum]. lra.
  - assert (sum (y :: ys) < 0) by (apply IH; [discriminate|exact Hxs]). lra.
Qed.

Lemma Qltb_true (x y : Q) : Qltb x y = true <-> x < y.
Proof. unfold Qltb. fold (Qgtb y x). apply Qgtb_true. Qed.

Lemma ltb_length_nonempty {A : Type} (df : list A) :
  Nat.ltb 0 (List.length df) = negb (empty df).
Proof. destruct df; reflexivity. Qed.

(** X10: the counts and rates of the performance summary are consistent.
    [total_trades] counts the CLOSED trades; winners and losers together
    never exceed it (a trade closed at pnl 0 is neither); the win rate lies
    between 0 and 100; [total_pnl] is the realized P&L that the balance is
    computed from; the average win is positive when there is a winner and
    the average loss negative when there is a loser, and both are 0
    otherwise. *)
Theorem performance_summary_consistent :
  forall self,
    let stats := get_performance_summary self in
    PerformanceSummary.total_trades stats
    = List.length (filter is_closed (trades_df self))
    /\ (PerformanceSummary.winning_trades stats
        + PerformanceSummary.losing_trades stats
        <= PerformanceSummary.total_trades stats)%nat
    /\ 0 <= PerformanceSummary.win_rate stats <= 100
    /\ PerformanceSummary.total_pnl stats == realized_pnl (trades_df self)
    /\ PerformanceSummary.current_balance stats = balance self
    /\ (if Nat.ltb 0 (PerformanceSummary.winning_trades stats)
        then 0 < PerformanceSummary.avg_win stats
        else PerformanceSummary.avg_win stats = 0)
    /\ (if Nat.ltb 0 (PerformanceSummary.losing_trades stats)
        then PerformanceSummary.avg_loss stats < 0
        else PerformanceSummary.avg_loss stats = 0).
Proof.
  intros self stats. subst stats. unfold get_performance_summary.
  rewrite realized_pnl_sum.
  set (closed := filter is_closed (trades_df self)).
  destruct closed as [|c closed'] eqn:E; cbn [empty].
  - cbn. repeat split; try reflexivity; try lia; lra.
  - rewrite <- E.
    assert (Forall (fun r => 0 < TradeRecord.pnl r)
              (filter (fun r => Qgtb (TradeRecord.pnl r) 0) closed)) as Fw.
    { apply Forall_forall. intros r Hr. apply filter_In in Hr.
      destruct Hr as [_ Hr]. now apply Qgtb_true in Hr. }
    assert (Forall (fun r => TradeRecord.pnl r < 0)
              (filter (fun r => Qltb (TradeRecord.pnl r) 0) closed)) as Fl.
    { apply Forall_forall. intros r Hr. apply filter_In in Hr.
      destruct Hr as [_ Hr]. now apply Qltb_true in Hr. }
    assert (List.length (filter (fun r => Qgtb (TradeRecord.pnl r) 0) closed)
            + List.length (filter (fun r => Qltb (TradeRecord.pnl r) 0) closed)
            <= List.length closed)%nat as Hdisj.
    { (* winners and losers are disjoint parts of the closed trades *)
      clear. induction closed as [|r rs IH]; [cbn; lia|].
      cbn [filter].
      destruct (Qgtb (TradeRecord.pnl r) 0) eqn:G;
        destruct (Qltb (TradeRecord.pnl r) 0) eqn:L; cbn [List.length];
        try lia.
      apply Qgtb_true in G. apply Qltb_true in L. lra. }
    assert (len (filter (fun r => Qgtb (TradeRecord.pnl r) 0) closed)
            <= len closed) as Hwc by apply len_filter_le.
    remember (filter (fun r => Qgtb (TradeRecord.pnl r) 0) closed)
      as winning eqn:Hw.
    remember (filter (fun r => Qltb (TradeRecord.pnl r) 0) closed)
      as losing eqn:Hl.
    cbn [PerformanceSummary.total_trades PerformanceSummary.winning_trades
         PerformanceSummary.losing_trades PerformanceSummary.win_rate
         PerformanceSummary.total_pnl PerformanceSummary.current_balance
         PerformanceSummary.avg_win PerformanceSummary.avg_loss].
    assert (closed <> []) as Hne by (rewrite E; discriminate).
    split; [reflexivity|]. split; [exact Hdisj|].
    split.
    { rewrite ltb_length_nonempty.
      replace (empty closed) with false by (rewrite E; reflexivity).
      cbn [negb].
      assert (0 < len closed) as Hc by (now apply len_pos).
      assert (0 <= len winning) as Hw0 by apply len_nonneg.
      assert (0 <= len winning / len closed).
      { apply Qle_shift_div_l; [exact Hc|]. lra. }
      assert (len winning / len closed <= 1).
      { apply Qle_shift_div_r; [exact Hc|]. lra. }
      split; lra. }
    split; [reflexivity|]. split; [reflexivity|]. split.
    + rewrite ltb_length_nonempty. clear Hw Hwc Hdisj.
      destruct winning as [|w ws]; cbn [empty negb]; [reflexivity|].
      unfold mean.
      assert (0 < sum (map TradeRecord.pnl (w :: ws))).
      { apply sum_positive; [discriminate|]. now apply Forall_map. }
      assert (0 < len (map TradeRecord.pnl (w :: ws)))
        by (apply len_pos; discriminate).
      apply Qlt_shift_div_l; [assumption|]. lra.
    + rewrite ltb_length_nonempty. clear Hl Hdisj.
      destruct losing as [|l ls]; cbn [empty negb]; [reflexivity|].
      unfold mean.
      assert (sum (map TradeRecord.pnl (l :: ls)) < 0).
      { apply sum_negative; [discriminate|]. now apply Forall_map. }
      assert (0 < len (map TradeRecord.pnl (l :: ls)))
        by (apply len_pos; discriminate).
      apply Qlt_shift_div_r; [assumption|]. lra.
Qed.

(** X11: on a reachable state the summary agrees with the ledger: the
    balance it reports is the starting balance plus the total P&L it
    reports.  Its total return is the code's own quotient of the balance's
    gain over the starting balance, times 100, and it is a number exactly
    when the starting balance is not zero or no trade is closed yet. *)
Theorem performance_summary_return :
  forall self, reachable self ->
  let stats := get_performance_summary self in
  PerformanceSummary.current_balance stats
  == starting_balance self + PerformanceSummary.total_pnl stats
  /\ (PerformanceSummary.total_return stats = None
      <-> starting_balance self == 0
          /\ filter is_closed (trades_df self) <> [])
  /\ (filter is_closed (trades_df self) <> [] ->
      ~ starting_balance self == 0 ->
      PerformanceSummary.total_return stats
      = Some ((PerformanceSummary.current_balance stats
               - starting_balance self) / starting_balance self * 100)).
Proof.
  intros self R stats. subst stats.
  pose proof (reachable_balance self R) as Hb.
  rewrite realized_pnl_sum in Hb.
  unfold get_performance_summary.
  destruct (filter is_closed (trades_df self)) as [|c closed'] eqn:E;
    cbn [empty].
  - cbn [PerformanceSummary.current_balance PerformanceSummary.total_pnl
         PerformanceSummary.total_return].
    split; [rewrite Hb; reflexivity|]. split.
    + split; [discriminate|]. intros [_ H]. now contradiction H.
    + intro H. now contradiction H.
  - cbn [PerformanceSummary.current_balance PerformanceSummary.total_pnl
         PerformanceSummary.total_return].
    split; [exact Hb|].
    destruct (Qeq_bool (starting_balance self) 0) eqn:Z.
    + apply Qeq_bool_iff in Z. split.
      * split; [intros _; split; [exact Z|discriminate]|reflexivity].
      * intros _ H. contradiction.
    + assert (~ starting_balance self == 0) as Hz.
      { intro H. apply Qeq_bool_iff in H. congruence. }
      split.
      * split; [discriminate|]. intros [H _]. contradiction.
      * intros _ _. reflexivity.
Qed.

(** The source's example run: after the three orders one trade is closed,
    the balance is the 10000 of the start plus its pnl of 10, and the
    return is a number. *)
Lemma performance_summary_return_witness :
  let r1 := place_order t0 "presidential-election-2024"
              "Will Trump win 2024 election?" "YES_TOKEN_123" "BUY"
              (65 # 100) 100 "LIMIT" "AI signal - 85% confidence" fresh in
  let r2 := place_order t0 "bitcoin-100k-2024"
              "Will Bitcoin hit $100k in 2024?" "YES_TOKEN_456" "BUY"
              (45 # 100) 50 "LIMIT" "Whale copy trade" (snd r1) in
  let r3 := place_order t0 "presidential-election-2024"
              "Will Trump win 2024 election?" "YES_TOKEN_123" "SELL"
              (75 # 100) 100 "LIMIT" "Taking profit" (snd r2) in
  let stats := get_performance_summary (snd r3) in
  PerformanceSummary.total_trades stats = 1%nat
  /\ PerformanceSummary.current_balance stats
     == starting_balance (snd r3) + PerformanceSummary.total_pnl stats
  /\ PerformanceSummary.total_return stats <> None.
Proof.
  intros r1 r2 r3 stats.
  destruct (performance_summary_return (snd r3)
              (reachable_place_order _ _ _ _ _ _ _ _ _ _
                 (reachable_place_order _ _ _ _ _ _ _ _ _ _
                    (reachable_place_order _ _ _ _ _ _ _ _ _ _
                       (reachable_fresh t0 10000)))))
    as [Hb [Hn _]].
  fold stats in Hb, Hn.
  split; [reflexivity|]. split; [exact Hb|].
  intro H. apply Hn in H. destruct H as [H _].
  vm_compute in H. discriminate H.
Defined.

(** * Further properties of the agent and of the order helpers *)

(** ** The consensus vote *)

Lemma count_votes_fold responses yes_votes no_votes total_votes :
  exists no_votes',
    fold_left Swarm.count_vote responses (yes_votes, no_votes, total_votes)
    = ((yes_votes
        + Z.of_nat (List.length (filter Swarm.agrees responses)))%Z,
       no_votes',
       (total_votes
        + Z.of_nat (List.length (filter Swarm.success responses)))%Z).
Proof.
  revert yes_votes no_votes total_votes.
  induction responses as [|d responses IH]; intros y n t.
  - exists n. cbn. now rewrite !Z.add_0_r.
  - cbn [fold_left filter].
    destruct (Swarm.success d) eqn:S.
    + destruct (contains "YES" (upper (Swarm.response d))
                && negb (contains "NO" (upper (Swarm.response d)))) eqn:A.
      * replace (Swarm.count_vote (y, n, t) d)
          with ((y + 1)%Z, n, (t + 1)%Z)
          by (unfold Swarm.count_vote; now rewrite S, A).
        replace (Swarm.agrees d) with true
          by (unfold Swarm.agrees; now rewrite S, A).
        destruct (IH (y + 1)%Z n (t + 1)%Z) as [n' ->]. exists n'.
        cbn [List.length]. rewrite !Nat2Z.inj_succ.
        f_equal; [f_equal|]; lia.
      * replace (Swarm.agrees d) with false
          by (unfold Swarm.agrees; now rewrite S, A).
        destruct (contains "NO" (upper (Swarm.response d))) eqn:N.
        -- replace (Swarm.count_vote (y, n, t) d)
             with (y, (n + 1)%Z, (t + 1)%Z)
             by (unfold Swarm.count_vote; now rewrite S, N, A).
           destruct (IH y (n + 1)%Z (t + 1)%Z) as [n' ->]. exists n'.
           cbn [List.length]. rewrite !Nat2Z.inj_succ. f_equal; lia.
        -- replace (Swarm.count_vote (y, n, t) d) with (y, n, (t + 1)%Z)
             by (unfold Swarm.count_vote; now rewrite S, N, A).
           destruct (IH y n (t + 1)%Z) as [n' ->]. exists n'.
           cbn [List.length]. rewrite !Nat2Z.inj_succ. f_equal; lia.
    + replace (Swarm.count_vote (y, n, t) d) with (y, n, t)
        by (unfold Swarm.count_vote; now rewrite S).
      replace (Swarm.agrees d) with false
        by (unfold Swarm.agrees; now rewrite S).
      apply IH.
Qed.

(** X12: the consensus rule of [ai_validate_trade].  The trade is approved
    exactly when at least one model answered and the answers that agree
    (YES without NO in the upper-cased text) are at least the threshold's
    share of the answers received; failed models do not count either way,
    and an answer that holds both words counts against.  No answer at all,
    or an error on the way, is a rejection whatever the threshold. *)
Theorem swarm_consensus_rule :
  forall responses confidence_threshold,
    let yes_votes := Z.of_nat (List.length (filter Swarm.agrees responses)) in
    let total_votes :=
      Z.of_nat (List.length (filter Swarm.success responses)) in
    (yes_votes <= total_votes)%Z
    /\ (Swarm.ai_validate_trade (Some responses) confidence_threshold = true
        <-> (0 < total_votes)%Z
            /\ confidence_threshold * inject_Z total_votes
               <= inject_Z yes_votes)
    /\ Swarm.ai_validate_trade None confidence_threshold = false.
Proof.
  intros responses thr yes_votes total_votes.
  split.
  { subst yes_votes total_votes. apply inj_le.
    induction responses as [|d responses IH]; [cbn; lia|].
    cbn [filter]. unfold Swarm.agrees at 1.
    destruct (Swarm.success d); cbn [andb].
    - destruct (_ && _); cbn [List.length]; lia.
    - exact IH. }
  split; [|reflexivity].
  unfold Swarm.ai_validate_trade.
  destruct (count_votes_fold responses 0 0 0) as [n' ->].
  rewrite !Z.add_0_l. fold yes_votes total_votes.
  destruct (total_votes =? 0)%Z eqn:E.
  - apply Z.eqb_eq in E. split; [discriminate|]. intros [H _]. lia.
  - apply Z.eqb_neq in E.
    assert (0 < total_votes)%Z as Hpos by (subst total_votes; lia).
    assert (0 < inject_Z total_votes) as HposQ.
    { replace 0 with (inject_Z 0) by reflexivity. now rewrite <- Zlt_Qlt. }
    rewrite Qgeb_true. split.
    + intro H. split; [exact Hpos|].
      setoid_replace (inject_Z yes_votes)
        with (inject_Z yes_votes / inject_Z total_votes * inject_Z total_votes)
        by (field; lra).
      apply Qmult_le_compat_r; [exact H|lra].
    + intros [_ H]. apply Qle_shift_div_l; assumption.
Qed.

(** ** The copy decision, step by step *)

Lemma Qltb_false (x y : Q) : Qltb x y = false <-> y <= x.
Proof. unfold Qltb. fold (Qgtb y x). apply Qgtb_false. Qed.

(** [_evaluate_copy_trade] either stops at a check, leaving the signals and
    the engine alone, or passes every check and appends one signal for the
    order it placed. *)
Lemma evaluate_copy_trade_cases cfg ext now slug title whale_side whale_size
    wallet win_rate self paper_engine :
  let w' := _evaluate_copy_trade cfg ext now slug title whale_side whale_size
              wallet win_rate (self, paper_engine) in
  let placed := place_market_order cfg ext now (copy_token slug whale_side)
                  (copy_size_usd cfg whale_size) "BUY" slug title
                  (copy_notes ext wallet win_rate) paper_engine in
  (copy_signals_df (fst w') = copy_signals_df self
   /\ trades_copied (fst w') = trades_copied self
   /\ snd w' = paper_engine
   /\ (ai_validated_trades (fst w') = ai_validated_trades self
       \/ ai_validated_trades (fst w') = (ai_validated_trades self + 1)%Z))
  \/ (ai_validate_trade ext slug whale_side (MIN_AI_CONSENSUS cfg) = true
      /\ copy_size_usd cfg whale_size <= get_balance cfg ext paper_engine
      /\ AUTO_COPY_ENABLED cfg = true
      /\ ai_validated_trades (fst w') = (ai_validated_trades self + 1)%Z
      /\ snd w' = snd placed
      /\ copy_signals_df (fst w')
         = (copy_signals_df self
            ++ [CopySignal.mk (isoformat now) slug title wallet whale_side
                  whale_size whale_side (copy_size_usd cfg whale_size)
                  (MIN_AI_CONSENSUS cfg)
                  (match fst placed with Some _ => true | None => false end)
                  "PENDING"])%list
      /\ trades_copied (fst w')
         = (trades_copied self
            + match fst placed with Some _ => 1 | None => 0 end)%Z).
Proof.
  unfold _evaluate_copy_trade.
  fold (copy_size_usd cfg whale_size) (copy_token slug whale_side)
       (copy_notes ext wallet win_rate).
  destruct (ai_validate_trade ext slug whale_side (MIN_AI_CONSENSUS cfg))
    eqn:A; cbn [negb].
  2:{ left. cbn [fst snd]. repeat split; trivial. now left. }
  destruct (Qltb (get_balance cfg ext paper_engine)
              (copy_size_usd cfg whale_size)) eqn:B.
  { left. cbn [fst snd copy_signals_df trades_copied ai_validated_trades].
    repeat split; trivial. now right. }
  apply Qltb_false in B.
  destruct (AUTO_COPY_ENABLED cfg) eqn:C.
  2:{ left. cbn [fst snd copy_signals_df trades_copied ai_validated_trades].
      repeat split; trivial. now right. }
  right.
  destruct (place_market_order cfg ext now (copy_token slug whale_side)
              (copy_size_usd cfg whale_size) "BUY" slug title
              (copy_notes ext wallet win_rate) paper_engine)
    as [order_id engine'] eqn:P.
  cbn [fst snd copy_signals_df trades_copied ai_validated_trades].
  repeat split; trivial.
  destruct order_id; [reflexivity|symmetry; apply Z.add_0_r].
Qed.

(** One message: either it is not a whale trade and none of the tables,
    nor the engine, changes; or it is one and it is counted, and then
    either a slice of its title or wallet raises and nothing else happens,
    or it is logged and its wallet sighted, and the copy decision runs if
    the wallet is a quality whale and auto-copy is on. *)
Lemma on_ws_message_step cfg ext now message self paper_engine :
  let w' := on_ws_message cfg ext now message (self, paper_engine) in
  ((total_trades_tracked (fst w') = total_trades_tracked self
    \/ total_trades_tracked (fst w') = (total_trades_tracked self + 1)%Z)
   /\ whale_trades_detected (fst w') = whale_trades_detected self
   /\ ai_validated_trades (fst w') = ai_validated_trades self
   /\ trades_copied (fst w') = trades_copied self
   /\ whale_trades_df (fst w') = whale_trades_df self
   /\ whale_wallets_df (fst w') = whale_wallets_df self
   /\ copy_signals_df (fst w') = copy_signals_df self
   /\ snd w' = paper_engine)
  \/ exists type topic payload p s,
       message = object type topic payload
       /\ float_get (price payload) = Some p
       /\ float_get (size payload) = Some s
       /\ MIN_WHALE_TRADE_SIZE cfg <= p * s
       /\ total_trades_tracked (fst w') = (total_trades_tracked self + 1)%Z
       /\ whale_trades_detected (fst w') = (whale_trades_detected self + 1)%Z
       /\ (((text_get (title payload) "Unknown" = None
             \/ text_get (trader payload) "Unknown" = None)
            /\ ai_validated_trades (fst w') = ai_validated_trades self
            /\ trades_copied (fst w') = trades_copied self
            /\ whale_trades_df (fst w') = whale_trades_df self
            /\ whale_wallets_df (fst w') = whale_wallets_df self
            /\ copy_signals_df (fst w') = copy_signals_df self
            /\ snd w' = paper_engine)
           \/ exists ttl wallet,
                text_get (title payload) "Unknown" = Some ttl
                /\ text_get (trader payload) "Unknown" = Some wallet
                /\ whale_trades_df (fst w')
                   = (whale_trades_df self
                      ++ [whale_row ext now payload ttl wallet p s])%list
                /\ whale_wallets_df (fst w')
                   = _update_whale_wallet now now wallet
                       (get_trader_stats ext wallet) (whale_wallets_df self)
                /\ let slug := str_get (eventSlug payload) "" in
                   let outcome := str_get (side payload) "" in
                   let win_rate :=
                     dict_get (get_trader_stats ext wallet) "win_rate" 0 in
                   let placed :=
                     place_market_order cfg ext now (copy_token slug outcome)
                       (copy_size_usd cfg (p * s)) "BUY" slug ttl
                       (copy_notes ext wallet win_rate) paper_engine in
                   (copy_signals_df (fst w') = copy_signals_df self
                    /\ trades_copied (fst w') = trades_copied self
                    /\ snd w' = paper_engine
                    /\ (ai_validated_trades (fst w')
                        = ai_validated_trades self
                        \/ ai_validated_trades (fst w')
                           = (ai_validated_trades self + 1)%Z))
                   \/ (MIN_WHALE_WIN_RATE cfg <= win_rate
                       /\ ai_validate_trade ext slug outcome
                            (MIN_AI_CONSENSUS cfg) = true
                       /\ copy_size_usd cfg (p * s)
                          <= get_balance cfg ext paper_engine
                       /\ AUTO_COPY_ENABLED cfg = true
                       /\ ai_validated_trades (fst w')
                          = (ai_validated_trades self + 1)%Z
                       /\ snd w' = snd placed
                       /\ copy_signals_df (fst w')
                          = (copy_signals_df self
                             ++ [CopySignal.mk (isoformat now) slug ttl wallet
                                   outcome (p * s) outcome
                                   (copy_size_usd cfg (p * s))
                                   (MIN_AI_CONSENSUS cfg)
                                   (match fst placed with
                                    | Some _ => true | None => false end)
                                   "PENDING"])%list
                       /\ trades_copied (fst w')
                          = (trades_copied self
                             + match fst placed with
                               | Some _ => 1 | None => 0 end)%Z)).
Proof.
  unfold on_ws_message.
  destruct message as [| |type topic payload];
    [left; cbn [fst snd]; repeat split; trivial; now left ..|].
  destruct (get_eqb type "subscribed");
    [left; cbn [fst snd]; repeat split; trivial; now left|].
  destruct (get_eqb type "pong");
    [left; cbn [fst snd]; repeat split; trivial; now left|].
  destruct (get_eqb topic "activity" && get_eqb type "orders_matched");
    [|left; cbn [fst snd]; repeat split; trivial; now left].
  destruct (float_get (price payload)) as [p|] eqn:Hp;
    [|left; cbn [fst snd]; repeat split; trivial; now right].
  destruct (float_get (size payload)) as [s|] eqn:Hs;
    [|left; cbn [fst snd]; repeat split; trivial; now right].
  destruct (Qgeb (p * s) (MIN_WHALE_TRADE_SIZE cfg)) eqn:G;
    [|left; cbn [fst snd]; repeat split; trivial; now right].
  apply Qgeb_true in G. right.
  exists type, topic, payload, p, s.
  do 4 (split; [trivial|]).
  unfold process_whale_trade.
  destruct (text_get (title payload) "Unknown") as [ttl|] eqn:Ht.
  2:{ cbn [fst snd]. split; [reflexivity|]. split; [reflexivity|].
      left. repeat split; trivial. now left. }
  destruct (text_get (trader payload) "Unknown") as [wallet|] eqn:Hw.
  2:{ cbn [fst snd]. split; [reflexivity|]. split; [reflexivity|].
      left. repeat split; trivial. now right. }
  fold (whale_row ext now payload ttl wallet p s).
  cbn [ws_connected total_trades_tracked whale_trades_detected
       ai_validated_trades trades_copied whale_trades_df whale_wallets_df
       copy_signals_df].
  destruct (Qgeb (dict_get (get_trader_stats ext wallet) "win_rate" 0)
              (MIN_WHALE_WIN_RATE cfg)) eqn:Q.
  2:{ cbn [andb fst snd]. split; [reflexivity|]. split; [reflexivity|].
      right. exists ttl, wallet. repeat split; trivial. left.
      repeat split; trivial. now left. }
  apply Qgeb_true in Q.
  destruct (AUTO_COPY_ENABLED cfg) eqn:C; cbn [andb].
  2:{ cbn [fst snd]. split; [reflexivity|]. split; [reflexivity|].
      right. exists ttl, wallet. repeat split; trivial. left.
      repeat split; trivial. now left. }
  match goal with
  | |- context [_evaluate_copy_trade cfg ext now ?a ?b ?c ?d ?e ?f (?x, ?y)] =>
      destruct (evaluate_copy_trade_frame cfg ext now a b c d e f x y)
        as [F1 [F2 [F3 F4]]];
      destruct (evaluate_copy_trade_cases cfg ext now a b c d e f x y)
        as [[E1 [E2 [E3 E4]]]|[E1 [E2 [E3 [E4 [E5 [E6 E7]]]]]]]
  end.
  - rewrite F1, F4.
    cbn [whale_trades_detected total_trades_tracked].
    split; [reflexivity|]. split; [reflexivity|].
    right. exists ttl, wallet. rewrite F2, F3.
    cbn [whale_trades_df whale_wallets_df].
    do 4 (split; [reflexivity|]). left.
    cbn [copy_signals_df trades_copied ai_validated_trades] in E1, E2, E4.
    repeat split; trivial.
  - rewrite F1, F4.
    cbn [whale_trades_detected total_trades_tracked].
    split; [reflexivity|]. split; [reflexivity|].
    right. exists ttl, wallet. rewrite F2, F3.
    cbn [whale_trades_df whale_wallets_df].
    do 4 (split; [reflexivity|]). right.
    cbn [copy_signals_df trades_copied ai_validated_trades] in E4, E6, E7.
    rewrite C in E3. repeat split; trivial.
Qed.

(** ** What reaches the engine and the copy signals *)



(** ** Invariants of a run of the agent *)

Lemma min_le_l (a b : Q) : min a b <= a.
Proof.
  unfold min. destruct (Qltb b a) eqn:E.
  - apply Qltb_true in E. lra.
  - lra.
Qed.

Lemma min_le_r (a b : Q) : min a b <= b.
Proof.
  unfold min. destruct (Qltb b a) eqn:E.
  - lra.
  - apply Qltb_false in E. exact E.
Qed.

(** X14: the counters of the agent bound its tables.  In every state of a
    run that starts from an agent that has seen nothing, the whale log has
    at most [whale_trades_detected] rows (a whale trade whose title or
    wallet could not be sliced is counted and not logged), [trades_copied]
    is the number of copy signals marked executed, and
    signals <= validated trades <= logged whales <= detected whales
    <= tracked trades. *)
Theorem agent_counters_match_tables :
  forall cfg paper_engine w',
    agent_run cfg (idle, paper_engine) w' ->
    let self := fst w' in
    trades_copied self = executed_signals (copy_signals_df self)
    /\ (Z.of_nat (List.length (copy_signals_df self))
        <= ai_validated_trades self
        <= Z.of_nat (List.length (whale_trades_df self)))%Z
    /\ (Z.of_nat (List.length (whale_trades_df self))
        <= whale_trades_detected self
        <= total_trades_tracked self)%Z.
Proof.
  intros cfg paper_engine w' R. cbv zeta.
  remember (idle, paper_engine) as w0 eqn:E.
  induction R as [w|ext now message w w' R IH]; subst.
  - cbn. repeat split; lia.
  - specialize (IH eq_refl). destruct w' as [self pe].
    cbn [fst] in IH. destruct IH as [I1 [[I2 I3] [I4 I5]]].
    destruct (on_ws_message_step cfg ext now message self pe)
      as [Q|[type [topic [payload [p [s [_ [_ [_ [_ [T1 [T2 Hc]]]]]]]]]]]].
    + destruct Q as [Q1 [Q2 [Q3 [Q4 [Q5 [_ [Q7 _]]]]]]].
      rewrite Q2, Q3, Q4, Q5, Q7. repeat split; try assumption.
      destruct Q1 as [-> | ->]; lia.
    + rewrite T1, T2.
      destruct Hc as [[_ [R1 [R2 [R3 [_ [R5 _]]]]]]
                     |[ttl [wallet [_ [_ [T3 [_ Hc]]]]]]].
      * rewrite R1, R2, R3, R5. repeat split; try assumption; lia.
      * cbv zeta in Hc. rewrite T3, length_app. cbn [List.length].
        destruct Hc as [[C1 [C2 [_ C4]]]|[_ [_ [_ [_ [C5 [_ [C7 C8]]]]]]]].
        -- rewrite C1, C2.
           repeat split; try assumption; try lia;
             destruct C4 as [-> | ->]; lia.
        -- rewrite C5, C7, C8, length_app. cbn [List.length].
           unfold executed_signals in *. rewrite filter_app, length_app.
           cbn [filter CopySignal.executed].
           destruct (fst (place_market_order _ _ _ _ _ _ _ _ _ _));
             cbn [List.length]; repeat split; lia.
Qed.

(** A whale trade with a null title, then the copied whale trade: two
    whales detected, one logged, one copied. *)
Lemma agent_counters_match_tables_witness :
  let w1 := on_ws_message copy_config approving t0
              (object (Some "orders_matched") (Some "activity")
                 (mk_Payload (Some "fed-rate-cut") not_text (text "0xwhale")
                    (Some "YES") (numeric (50 # 100)) (numeric 100000)))
              (idle, Some fresh) in
  let w2 := on_ws_message copy_config approving t0
              (trade_event "fed-rate-cut" "0xwhale" "YES" (50 # 100) 100000)
              w1 in
  whale_trades_detected (fst w2) = 2%Z
  /\ List.length (whale_trades_df (fst w2)) = 1%nat
  /\ trades_copied (fst w2) = executed_signals (copy_signals_df (fst w2)).
Proof.
  intros w1 w2.
  destruct (agent_counters_match_tables copy_config (Some fresh) w2)
    as [H1 _].
  - subst w2 w1. apply agent_run_message, agent_run_message, agent_run_refl.
  - split; [reflexivity|]. split; [reflexivity|exact H1].
Defined.

(** X15: the whale log holds whale trades only, and the agent never goes
    back to a row.  In every state of a run from an agent that has seen
    nothing, each logged row has [usd_value = price * size] at or above the
    threshold, and its [ai_validated] and [copied] flags are still False,
    also for the trades that were validated and copied. *)
Theorem whale_log_rows_are_whales :
  forall cfg paper_engine w',
    agent_run cfg (idle, paper_engine) w' ->
    Forall (logged_as_whale cfg) (whale_trades_df (fst w')).
Proof.
  intros cfg paper_engine w' R.
  remember (idle, paper_engine) as w0 eqn:E.
  induction R as [w|ext now message w w' R IH]; subst.
  - constructor.
  - specialize (IH eq_refl). destruct w' as [self pe]. cbn [fst] in IH.
    destruct (on_ws_message_step cfg ext now message self pe)
      as [Q|[type [topic [payload [p [s [_ [_ [_ [Hw [_ [_ Hc]]]]]]]]]]]].
    + destruct Q as [_ [_ [_ [_ [Q5 _]]]]]. now rewrite Q5.
    + destruct Hc as [[_ [_ [_ [R3 _]]]]|[ttl [wallet [_ [_ [T3 _]]]]]].
      * now rewrite R3.
      * rewrite T3. apply Forall_app. split; [exact IH|].
        constructor; [|constructor].
        unfold logged_as_whale, whale_row.
        cbn [WhaleTrade.usd_value WhaleTrade.price WhaleTrade.size
             WhaleTrade.ai_validated WhaleTrade.copied].
        repeat split; trivial.
Qed.

Lemma whale_log_rows_are_whales_witness :
  Forall (logged_as_whale copy_config) (whale_trades_df (fst copy_run)).
Proof.
  apply (whale_log_rows_are_whales copy_config (Some fresh) copy_run).
  unfold copy_run. apply agent_run_message, agent_run_refl.
Defined.

(** X16: every copy signal is sized by the settings.  In every state of a run
    from an agent that has seen nothing, each signal's [our_size] is at
    most the maximum position size and at most the copy percentage of the
    whale's size, the whale's size is at least the whale threshold, our
    side is the whale's side, the outcome is PENDING, and [ai_consensus]
    holds the configured minimum, not the consensus that was measured. *)
Theorem copy_signals_sized_by_config :
  forall cfg paper_engine w',
    agent_run cfg (idle, paper_engine) w' ->
    Forall (sized_by_config cfg) (copy_signals_df (fst w')).
Proof.
  intros cfg paper_engine w' R.
  remember (idle, paper_engine) as w0 eqn:E.
  induction R as [w|ext now message w w' R IH]; subst.
  - constructor.
  - specialize (IH eq_refl). destruct w' as [self pe]. cbn [fst] in IH.
    destruct (on_ws_message_step cfg ext now message self pe)
      as [Q|[type [topic [payload [p [s [_ [_ [_ [Hw [_ [_ Hc]]]]]]]]]]]].
    + destruct Q as [_ [_ [_ [_ [_ [_ [Q7 _]]]]]]]. now rewrite Q7.
    + destruct Hc as [[_ [_ [_ [_ [_ [R5 _]]]]]]
                     |[ttl [wallet [_ [_ [_ [_ Hc]]]]]]].
      * now rewrite R5.
      * cbv zeta in Hc.
        destruct Hc as [[C1 _]|[_ [_ [_ [_ [_ [_ [C7 _]]]]]]]].
        -- now rewrite C1.
        -- rewrite C7. apply Forall_app. split; [exact IH|].
           constructor; [|constructor].
           unfold sized_by_config.
           cbn [CopySignal.our_size CopySignal.whale_size CopySignal.our_side
                CopySignal.whale_side CopySignal.ai_consensus
                CopySignal.outcome].
           unfold copy_size_usd.
           repeat split; trivial; [apply min_le_r|apply min_le_l].
Qed.

Lemma copy_signals_sized_by_config_witness :
  Forall (sized_by_config copy_config) (copy_signals_df (fst copy_run)).
Proof.
  apply (copy_signals_sized_by_config copy_config (Some fresh) copy_run).
  unfold copy_run. apply agent_run_message, agent_run_refl.
Defined.

(** ** The registry and the whale log *)

Lemma sighting_address now stats r :
  WhaleWallet.wallet_address (sighting now stats r)
  = WhaleWallet.wallet_address r.
Proof. unfold sighting. destruct (empty stats); reflexivity. Qed.

Lemma sighting_trade_count now stats r :
  WhaleWallet.trade_count (sighting now stats r)
  = (WhaleWallet.trade_count r + 1)%Z.
Proof. unfold sighting. destruct (empty stats); reflexivity. Qed.

Lemma logged_trades_of_app wallet log row :
  logged_trades_of wallet (log ++ [row])
  = (logged_trades_of wallet log
     + if String.eqb (WhaleTrade.wallet_address row) wallet then 1 else 0)%Z.
Proof.
  unfold logged_trades_of. rewrite filter_app, length_app. cbn [filter].
  destruct (WhaleTrade.wallet_address row =? wallet); cbn [List.length]; lia.
Qed.

Lemma not_logged_zero wallet log :
  (forall t, In t log -> WhaleTrade.wallet_address t <> wallet) ->
  logged_trades_of wallet log = 0%Z.
Proof.
  intro H. unfold logged_trades_of.
  replace (filter (fun r => WhaleTrade.wallet_address r =? wallet) log)
    with (@nil WhaleTrade.t); [reflexivity|].
  symmetry. induction log as [|t log IH]; [reflexivity|].
  cbn [filter]. destruct (WhaleTrade.wallet_address t =? wallet) eqn:E.
  - apply String.eqb_eq in E. exfalso. apply (H t); [now left|exact E].
  - apply IH. intros t' Ht'. apply H. now right.
Qed.

(** The registry invariant, one sighting further. *)
Lemma registry_step now later wallet stats registry log row :
  WhaleTrade.wallet_address row = wallet ->
  NoDup (map WhaleWallet.wallet_address registry) ->
  (forall r, In r registry ->
     WhaleWallet.trade_count r
     = logged_trades_of (WhaleWallet.wallet_address r) log) ->
  (forall t, In t log ->
     exists r, In r registry
       /\ WhaleWallet.wallet_address r = WhaleTrade.wallet_address t) ->
  let registry' := _update_whale_wallet now later wallet stats registry in
  let log' := (log ++ [row])%list in
  NoDup (map WhaleWallet.wallet_address registry')
  /\ (forall r, In r registry' ->
        WhaleWallet.trade_count r
        = logged_trades_of (WhaleWallet.wallet_address r) log')
  /\ (forall t, In t log' ->
        exists r, In r registry'
          /\ WhaleWallet.wallet_address r = WhaleTrade.wallet_address t).
Proof.
  intros Hrow Hnd Hcount Hreg registry' log'. subst registry' log'.
  unfold _update_whale_wallet.
  destruct (existsb (wallet_mask wallet) registry) eqn:E.
  - (* a known wallet *)
    apply existsb_wallet_mask in E. destruct E as [r0 [Hr0 Ha0]].
    set (f := fun r => if wallet_mask wallet r then sighting now stats r
                       else r).
    assert (forall r, WhaleWallet.wallet_address (f r)
                      = WhaleWallet.wallet_address r) as Hf.
    { intro r. unfold f. destruct (wallet_mask wallet r);
        [apply sighting_address|reflexivity]. }
    split; [|split].
    + rewrite map_map. rewrite (map_ext _ _ Hf). exact Hnd.
    + intros r' Hin. apply in_map_iff in Hin. destruct Hin as [r [<- Hin]].
      rewrite Hf, logged_trades_of_app, Hrow. unfold f, wallet_mask.
      rewrite (String.eqb_sym wallet).
      destruct (WhaleWallet.wallet_address r =? wallet).
      * rewrite sighting_trade_count, (Hcount r Hin). reflexivity.
      * rewrite (Hcount r Hin). lia.
    + intros t Hin. apply in_app_or in Hin. destruct Hin as [Hin|[<-|[]]].
      * destruct (Hreg t Hin) as [r [Hr Ha]].
        exists (f r). split; [now apply in_map|]. now rewrite Hf.
      * exists (f r0). split; [now apply in_map|].
        rewrite Hf. congruence.
  - (* a new wallet *)
    assert (forall r, In r registry -> WhaleWallet.wallet_address r <> wallet)
      as Hnew.
    { intros r Hin Ha.
      assert (existsb (wallet_mask wallet) registry = true) as E'
        by (apply existsb_wallet_mask; eauto).
      congruence. }
    split; [|split].
    + rewrite map_app. cbn [map WhaleWallet.wallet_address].
      apply NoDup_app; [exact Hnd|repeat constructor; intros []|].
      intros a Ha [<-|[]]. apply in_map_iff in Ha.
      destruct Ha as [r [Ha Hin]]. exact (Hnew r Hin Ha).
    + intros r Hin. apply in_app_or in Hin. destruct Hin as [Hin|[<-|[]]].
      * rewrite logged_trades_of_app, Hrow.
        replace (wallet =? WhaleWallet.wallet_address r) with false.
        -- rewrite (Hcount r Hin). lia.
        -- symmetry. apply String.eqb_neq. intro H. symmetry in H.
           exact (Hnew r Hin H).
      * cbn [WhaleWallet.trade_count WhaleWallet.wallet_address].
        rewrite logged_trades_of_app, Hrow, String.eqb_refl.
        rewrite not_logged_zero; [reflexivity|].
        intros t Ht Ha. destruct (Hreg t Ht) as [r [Hr Hr']].
        apply (Hnew r Hr). congruence.
    + intros t Hin. apply in_app_or in Hin. destruct Hin as [Hin|[<-|[]]].
      * destruct (Hreg t Hin) as [r [Hr Ha]].
        exists r. split; [apply in_or_app; now left|exact Ha].
      * eexists. split; [apply in_or_app; right; left; reflexivity|].
        cbn [WhaleWallet.wallet_address]. congruence.
Qed.

(** X17: the registry mirrors the whale log.  In every state of a run from an
    agent that has seen nothing, no wallet address appears on two registry
    rows, every wallet of a logged whale trade is registered, and the
    [trade_count] of a registered wallet is the number of whale trades
    logged for it. *)
Theorem registry_counts_logged_trades :
  forall cfg paper_engine w',
    agent_run cfg (idle, paper_engine) w' ->
    let self := fst w' in
    NoDup (map WhaleWallet.wallet_address (whale_wallets_df self))
    /\ (forall r, In r (whale_wallets_df self) ->
          WhaleWallet.trade_count r
          = logged_trades_of (WhaleWallet.wallet_address r)
              (whale_trades_df self))
    /\ (forall t, In t (whale_trades_df self) ->
          exists r, In r (whale_wallets_df self)
            /\ WhaleWallet.wallet_address r = WhaleTrade.wallet_address t).
Proof.
  intros cfg paper_engine w' R. cbv zeta.
  remember (idle, paper_engine) as w0 eqn:E.
  induction R as [w|ext now message w w' R IH]; subst.
  - cbn. split; [constructor|]. split; intros ? [].
  - specialize (IH eq_refl). destruct w' as [self pe]. cbn [fst] in IH.
    destruct IH as [I1 [I2 I3]].
    destruct (on_ws_message_step cfg ext now message self pe)
      as [Q|[type [topic [payload [p [s [_ [_ [_ [_ [_ [_ Hc]]]]]]]]]]]].
    + destruct Q as [_ [_ [_ [_ [Q5 [Q6 _]]]]]]. rewrite Q5, Q6. tauto.
    + destruct Hc as [[_ [_ [_ [R3 [R4 _]]]]]
                     |[ttl [wallet [_ [_ [T3 [T4 _]]]]]]].
      * rewrite R3, R4. tauto.
      * rewrite T3, T4. apply registry_step; trivial.
Qed.

(** Two whale trades of one wallet and one of another. *)
Lemma registry_counts_logged_trades_witness :
  let w1 := on_ws_message default_config approving t0
              (trade_event "fed-rate-cut" "0xwhale" "YES" (50 # 100) 100000)
              (idle, Some fresh) in
  let w2 := on_ws_message default_config approving t0
              (trade_event "fed-rate-cut" "0xother" "NO" (50 # 100) 40000) w1 in
  let w3 := on_ws_message default_config approving t0
              (trade_event "bitcoin-100k-2024" "0xwhale" "YES" (2 # 100)
                 600000) w2 in
  map (fun r => (WhaleWallet.wallet_address r, WhaleWallet.trade_count r))
    (whale_wallets_df (fst w3)) = [("0xwhale", 2%Z); ("0xother", 1%Z)]
  /\ NoDup (map WhaleWallet.wallet_address (whale_wallets_df (fst w3))).
Proof.
  intros w1 w2 w3. split; [reflexivity|].
  apply (registry_counts_logged_trades default_config (Some fresh) w3).
  subst w3 w2 w1. repeat apply agent_run_message. apply agent_run_refl.
Defined.

(** ** The engine under the agent *)

Lemma place_order_starting now slug title token side price size order_type
    notes self :
  starting_balance
    (snd (place_order now slug title token side price size order_type notes
            self))
  = starting_balance self.
Proof.
  destruct (place_order_cases now slug title token side price size order_type
              notes self) as [E|[self3 [E H]]]; rewrite E; cbn [snd].
  - reflexivity.
  - destruct (recalculate_frame now self3) as [Hs _]. now rewrite Hs.
Qed.

(** A BUY closes nothing and, on a reachable state, leaves the balance
    where it was. *)
Lemma buy_keeps_account now slug title token price size order_type notes
    self :
  reachable self ->
  let self' := snd (place_order now slug title token "BUY" price size
                      order_type notes self) in
  reachable self'
  /\ starting_balance self' = starting_balance self
  /\ filter is_closed (trades_df self') = filter is_closed (trades_df self)
  /\ balance self' == balance self.
Proof.
  intros R self'.
  assert (reachable self') as R' by (now apply reachable_place_order).
  assert (starting_balance self' = starting_balance self) as Hs
    by apply place_order_starting.
  assert (filter is_closed (trades_df self')
          = filter is_closed (trades_df self)) as Hc.
  { destruct (place_order_trades now slug title token "BUY" price size
                order_type notes self) as [H|[H|[H _]]]; fold self' in H.
    - now rewrite H.
    - rewrite H, filter_app. cbn. now rewrite app_nil_r.
    - now contradiction H. }
  repeat split; trivial.
  rewrite (reachable_balance self' R'), (reachable_balance self R).
  rewrite !realized_pnl_sum, Hs, Hc. reflexivity.
Qed.

Lemma place_limit_order_live cfg ext now token price size side slug title
    notes paper_engine :
  PAPER_TRADING_ENABLED cfg = false ->
  snd (place_limit_order cfg ext now token price size side slug title notes
         paper_engine) = paper_engine.
Proof.
  intro H. unfold place_limit_order. rewrite H.
  destruct (poly_client ext); reflexivity.
Qed.

Lemma place_market_order_buy_engine cfg ext now token size slug title notes
    engine :
  reachable engine ->
  exists engine',
    snd (place_market_order cfg ext now token size "BUY" slug title notes
           (Some engine)) = Some engine'
    /\ reachable engine'
    /\ starting_balance engine' = starting_balance engine
    /\ filter is_closed (trades_df engine')
       = filter is_closed (trades_df engine)
    /\ balance engine' == balance engine.
Proof.
  intro R. unfold place_market_order.
  destruct (PAPER_TRADING_ENABLED cfg) eqn:P.
  - destruct (place_order now (str_or slug "unknown")
                (str_or title "Unknown Market") token "BUY" (50 # 100) size
                "MARKET" (str_or notes "Market order (simulated price)")
                engine) as [r engine'] eqn:E.
    exists engine'. split; [reflexivity|].
    replace engine' with
      (snd (place_order now (str_or slug "unknown")
              (str_or title "Unknown Market") token "BUY" (50 # 100) size
              "MARKET" (str_or notes "Market order (simulated price)")
              engine)) by (now rewrite E).
    now apply buy_keeps_account.
  - exists engine.
    split; [|repeat split; trivial; reflexivity].
    destruct (if upper "BUY" =? "BUY" then _ else _);
      [apply place_limit_order_live; exact P|reflexivity].
Qed.

(** X18: the agent only ever buys.  Along any run of the agent over a paper
    engine in a reachable state, the engine stays in a reachable state with
    the same starting balance, no trade gets closed, and therefore the
    paper balance, which the balance check of the copy decision reads,
    never moves, however many copies are placed. *)
Theorem agent_never_moves_paper_balance :
  forall cfg agent engine w',
    reachable engine ->
    agent_run cfg (agent, Some engine) w' ->
    exists engine',
      snd w' = Some engine'
      /\ reachable engine'
      /\ starting_balance engine' = starting_balance engine
      /\ filter is_closed (trades_df engine')
         = filter is_closed (trades_df engine)
      /\ balance engine' == balance engine.
Proof.
  intros cfg agent engine w' Hr R.
  remember (agent, Some engine) as w0 eqn:E.
  induction R as [w|ext now message w w' R IH]; subst.
  - exists engine. repeat split; trivial; reflexivity.
  - destruct (IH eq_refl) as [e1 [H1 [H2 [H3 [H4 H5]]]]].
    destruct w' as [self pe]. cbn [snd] in H1. subst pe.
    destruct (on_ws_message_step cfg ext now message self (Some e1))
      as [Q|[type [topic [payload [p [s [_ [_ [_ [_ [_ [_ Hc]]]]]]]]]]]].
    + destruct Q as [_ [_ [_ [_ [_ [_ [_ Q8]]]]]]].
      exists e1. rewrite Q8. repeat split; trivial.
    + destruct Hc as [[_ [_ [_ [_ [_ [_ R6]]]]]]
                     |[ttl [wallet [_ [_ [_ [_ Hc]]]]]]];
        [exists e1; rewrite R6; repeat split; trivial|].
      cbv zeta in Hc.
      destruct Hc as [[_ [_ [C3 _]]]|[_ [_ [_ [_ [_ [C6 _]]]]]]].
      * exists e1. rewrite C3. repeat split; trivial.
      * rewrite C6.
        match goal with
        | |- context [place_market_order cfg ext now ?tk ?sz "BUY" ?sl ?tt
                        ?nt (Some e1)] =>
            destruct (place_market_order_buy_engine cfg ext now tk sz sl tt
                        nt e1 H2) as [e2 [G1 [G2 [G3 [G4 G5]]]]]
        end.
        exists e2. rewrite G1. repeat split; trivial; try congruence.
        now rewrite G5.
Qed.

Lemma agent_never_moves_paper_balance_witness :
  exists engine',
    snd copy_run = Some engine'
    /\ reachable engine'
    /\ starting_balance engine' = starting_balance fresh
    /\ filter is_closed (trades_df engine') = filter is_closed (trades_df fresh)
    /\ balance engine' == balance fresh.
Proof.
  apply (agent_never_moves_paper_balance copy_config idle fresh copy_run).
  - apply reachable_fresh.
  - unfold copy_run. apply agent_run_message, agent_run_refl.
Defined.

(** X19: what cannot be read is dropped.  A message that is not JSON or not
    an object, or a trade event whose price or size [float()] refuses,
    leaves the whale log, the registry, the copy signals, the engine and
    every counter but [total_trades_tracked] as they were; the stream goes
    on. *)
Theorem unreadable_messages_are_dropped :
  forall cfg ext now message self paper_engine,
    message = not_json \/ message = not_an_object
    \/ (exists type topic payload,
          message = object type topic payload
          /\ (float_get (price payload) = None
              \/ float_get (size payload) = None)) ->
    let w' := on_ws_message cfg ext now message (self, paper_engine) in
    snd w' = paper_engine
    /\ whale_trades_df (fst w') = whale_trades_df self
    /\ whale_wallets_df (fst w') = whale_wallets_df self
    /\ copy_signals_df (fst w') = copy_signals_df self
    /\ whale_trades_detected (fst w') = whale_trades_detected self
    /\ ai_validated_trades (fst w') = ai_validated_trades self
    /\ trades_copied (fst w') = trades_copied self.
Proof.
  intros cfg ext now message self paper_engine H w'.
  destruct (on_ws_message_step cfg ext now message self paper_engine)
    as [Q|[type [topic [payload [p [s [Hm [Hp [Hs _]]]]]]]]].
  - fold w' in Q. tauto.
  - exfalso. rewrite Hm in H.
    destruct H as [H|[H|[ty [tp [pl [H F]]]]]]; try discriminate H.
    injection H as _ _ <-. destruct F as [F|F]; congruence.
Qed.

Lemma unreadable_messages_are_dropped_witness :
  let w' := on_ws_message default_config approving t0
              (object (Some "orders_matched") (Some "activity")
                 (mk_Payload (Some "fed-rate-cut") no_text (text "0xwhale")
                    (Some "YES") malformed (numeric 600000)))
              (idle, Some fresh) in
  snd w' = Some fresh
  /\ whale_trades_df (fst w') = []
  /\ total_trades_tracked (fst w') = 1%Z.
Proof.
  intro w'.
  destruct (unreadable_messages_are_dropped default_config approving t0
              (object (Some "orders_matched") (Some "activity")
                 (mk_Payload (Some "fed-rate-cut") no_text (text "0xwhale")
                    (Some "YES") malformed (numeric 600000)))
              idle (Some fresh)) as [H1 [H2 _]].
  - right. right. eexists _, _, _. split; [reflexivity|]. left. reflexivity.
  - split; [exact H1|]. split; [exact H2|reflexivity].
Defined.

(** ** Placing the copy order *)

(** X20: in paper mode a copy that passes the checks is always executed.
    With auto-copy on, the oracle's approval and a copy size between 0 and
    the engine's balance, the engine accepts the order (it costs half the
    copy size), so the decision counts one validated and one copied trade,
    appends a signal marked executed that carries the copy size, and the
    engine gains one open MARKET BUY row of [copy size] shares at 0.50. *)
Theorem paper_copy_always_executes :
  forall cfg ext now slug title whale_side whale_size wallet win_rate self
         engine,
    PAPER_TRADING_ENABLED cfg = true ->
    AUTO_COPY_ENABLED cfg = true ->
    ai_validate_trade ext slug whale_side (MIN_AI_CONSENSUS cfg) = true ->
    0 <= copy_size_usd cfg whale_size ->
    copy_size_usd cfg whale_size <= balance engine ->
    let w' := _evaluate_copy_trade cfg ext now slug title whale_side
                whale_size wallet win_rate (self, Some engine) in
    let row := new_trade now (str_or slug "unknown")
                 (str_or title "Unknown Market") (copy_token slug whale_side)
                 "BUY" (50 # 100) (copy_size_usd cfg whale_size) "MARKET"
                 (str_or (copy_notes ext wallet win_rate)
                    "Market order (simulated price)") in
    ai_validated_trades (fst w') = (ai_validated_trades self + 1)%Z
    /\ trades_copied (fst w') = (trades_copied self + 1)%Z
    /\ (exists signal,
          copy_signals_df (fst w') = (copy_signals_df self ++ [signal])%list
          /\ CopySignal.executed signal = true
          /\ CopySignal.our_size signal = copy_size_usd cfg whale_size)
    /\ (exists engine',
          snd w' = Some engine'
          /\ trades_df engine' = (trades_df engine ++ [row])%list)
    /\ TradeRecord.usd_value row == copy_size_usd cfg whale_size / 2.
Proof.
  intros cfg ext now slug title whale_side whale_size wallet win_rate self
    engine P A V H0 Hb w' row.
  assert ((50 # 100) * copy_size_usd cfg whale_size <= balance engine) as Hle
    by lra.
  subst w'. unfold _evaluate_copy_trade.
  fold (copy_size_usd cfg whale_size) (copy_token slug whale_side)
       (copy_notes ext wallet win_rate).
  rewrite V, A. cbn [negb].
  replace (get_balance cfg ext (Some engine)) with (balance engine)
    by (unfold get_balance; now rewrite P).
  replace (Qltb (balance engine) (copy_size_usd cfg whale_size)) with false
    by (symmetry; now apply Qltb_false).
  unfold place_market_order. rewrite P.
  rewrite (place_order_buy _ _ _ _ _ _ _ _ _ Hle).
  cbn [fst snd ai_validated_trades trades_copied copy_signals_df].
  split; [reflexivity|]. split; [reflexivity|]. split.
  - eexists. split; [reflexivity|]. split; reflexivity.
  - split.
    + eexists. split; [reflexivity|].
      match goal with
      | |- context [_recalculate_balance now ?s] =>
          destruct (recalculate_frame now s) as [_ [H _]]; rewrite H
      end.
      reflexivity.
    + subst row. cbn [new_trade TradeRecord.usd_value]. field.
Qed.

Lemma paper_copy_always_executes_witness :
  let w' := _evaluate_copy_trade copy_config approving t0 "fed-rate-cut"
              "Fed rate cut?" "YES" 50000 "0xwhale" 75 (idle, Some fresh) in
  trades_copied (fst w') = 1%Z
  /\ exists signal,
       copy_signals_df (fst w') = [signal]
       /\ CopySignal.executed signal = true
       /\ CopySignal.our_size signal = copy_size_usd copy_config 50000.
Proof.
  intro w'.
  destruct (paper_copy_always_executes copy_config approving t0 "fed-rate-cut"
              "Fed rate cut?" "YES" 50000 "0xwhale" 75 idle fresh)
    as [_ [H2 [H3 _]]]; try reflexivity.
  - vm_compute. discriminate.
  - vm_compute. discriminate.
  - split; [exact H2|exact H3].
Defined.

(** X21: the order helpers fail closed.  Without a backend (paper mode
    without an engine, or live mode without an exchange client) both
    [place_limit_order] and [place_market_order] return no order id and
    leave the paper engine alone; and in live mode a market order whose
    side of the book is empty (no asks for a BUY, no bids otherwise)
    returns no order id whatever the exchange would have answered. *)
Theorem order_helpers_fail_closed :
  forall cfg ext now token price size order_side slug title notes
         paper_engine,
    ((PAPER_TRADING_ENABLED cfg = true /\ paper_engine = None)
     \/ (PAPER_TRADING_ENABLED cfg = false /\ poly_client ext = None) ->
     place_limit_order cfg ext now token price size order_side slug title
       notes paper_engine = (None, paper_engine)
     /\ place_market_order cfg ext now token size order_side slug title notes
          paper_engine = (None, paper_engine))
    /\ (PAPER_TRADING_ENABLED cfg = false ->
        (forall client, poly_client ext = Some client ->
           (if upper order_side =? "BUY"
            then fst (get_order_book client token)
            else snd (get_order_book client token)) = []) ->
        place_market_order cfg ext now token size order_side slug title notes
          paper_engine = (None, paper_engine)).
Proof.
  intros cfg ext now token price size order_side slug title notes
    paper_engine. split.
  - intros [[P ->]|[P C]]; unfold place_limit_order, place_market_order;
      rewrite P; [split; reflexivity|]. rewrite C. cbn [fst snd].
    split; [reflexivity|]. destruct (upper order_side =? "BUY"); reflexivity.
  - intros P H. unfold place_market_order. rewrite P.
    destruct (poly_client ext) as [client|] eqn:C.
    + specialize (H client eq_refl).
      destruct (upper order_side =? "BUY"); rewrite H; reflexivity.
    + cbn [fst snd]. destruct (upper order_side =? "BUY"); reflexivity.
Qed.

Lemma order_helpers_fail_closed_witness :
  place_limit_order default_config approving t0 "fed-rate-cut_YES_TOKEN"
    (60 # 100) 100 "BUY" "fed-rate-cut" "Fed rate cut?" "" None = (None, None)
  /\ place_market_order default_config approving t0 "fed-rate-cut_YES_TOKEN"
       100 "BUY" "fed-rate-cut" "Fed rate cut?" "" None = (None, None).
Proof.
  apply (order_helpers_fail_closed default_config approving t0
           "fed-rate-cut_YES_TOKEN" (60 # 100) 100 "BUY" "fed-rate-cut"
           "Fed rate cut?" "" None).
  left. split; reflexivity.
Defined.
